(** * ocean.py: the unit-conversion and network-selection helpers of
    [ocean_lib/ocean/util.py] and the pool wrapper [BPool] of
    [ocean_lib/models/v4/bpool.py], embedded in Rocq.

    Python numbers are modelled as they are at run time: an [int] is an
    unbounded integer ([Z]) and a [float] is an IEEE 754 binary64 number
    (the Standard Library's [spec_float] at precision 53 and maximal
    exponent 1024).  Python dictionaries and sets are stdpp's [gmap] and
    [gset].  A call that leaves the process (a transaction or a contract
    call through web3) is an event of a small free monad, answered by a
    channel that the theorems quantify over. *)

From Stdlib Require Import ZArith String Ascii List Lia Bool.
From Stdlib Require Import Floats.SpecFloat.
From stdpp Require Import gmap strings.

Set Warnings "-register-all,-clear-no-such-hyp".
Set Default Proof Using "Type".

Open Scope string_scope.
Open Scope Z_scope.

(** ** Exceptions and results *)

(** The exceptions the modelled code can raise.  The text of the
    [AssertionError] of [get_web3_connection_provider] formats a Python
    set, whose order of elements is not fixed by the language; the text is
    therefore left out of the model. *)
Inductive exn : Type :=
| AssertionError
| AttributeError
| OverflowError
| ValueError
| ZeroDivisionError
| JSONDecodeError
| IsADirectoryError
| PermissionError.

Inductive result (A : Type) : Type :=
| Ok (a : A)
| Raised (e : exn).
Arguments Ok {A} a.
Arguments Raised {A} e.

Definition rbind {A B : Type} (r : result A) (k : A -> result B) : result B :=
  match r with
  | Ok a => k a
  | Raised e => Raised e
  end.

#[global] Instance result_ret : MRet result := fun _ a => Ok a.
#[global] Instance result_bind : MBind result := fun _ _ k r => rbind r k.

(** ** Python numbers *)

Module PyNum.

Definition prec : Z := 53.
Definition emax : Z := 1024.

(** A Python [float]. *)
Definition float : Type := spec_float.

(** The operand of an arithmetic operator: an [int] or a [float]. *)
Inductive pynum : Type :=
| PyInt (z : Z)
| PyFloat (f : float).

(** [float(z)] for an int [z]: the nearest binary64 number, ties to even;
    CPython raises [OverflowError] when [z] is out of the range of a
    float. *)
Definition float_of_int (z : Z) : result float :=
  match binary_normalize prec emax z 0 false with
  | S754_infinity _ => Raised OverflowError
  | f => Ok f
  end.

(** [float(x)] *)
Definition py_float (x : pynum) : result float :=
  match x with
  | PyInt z => float_of_int z
  | PyFloat f => Ok f
  end.

(** [x * y]: exact on two ints; on a float and an int the int is converted
    first; float multiplication rounds and does not raise. *)
Definition py_mul (x y : pynum) : result pynum :=
  match x, y with
  | PyInt a, PyInt b => Ok (PyInt (a * b))
  | _, _ =>
      fx ← py_float x;
      fy ← py_float y;
      Ok (PyFloat (SFmul prec emax fx fy))
  end.

(** [a / b] on two ints: the correctly rounded quotient, whatever the
    size of [a] and [b]. *)
Definition int_true_divide (a b : Z) : result float :=
  if b =? 0 then Raised ZeroDivisionError
  else
    let '(q, e, l) := SFdiv_core_binary prec emax (Z.abs a) 0 (Z.abs b) 0 in
    match binary_round_aux prec emax (xorb (a <? 0) (b <? 0)) q e l with
    | S754_infinity _ => Raised OverflowError
    | f => Ok f
    end.

Definition float_is_zero (f : float) : bool :=
  match f with
  | S754_zero _ => true
  | _ => false
  end.

(** [x / y]: true division. *)
Definition py_truediv (x y : pynum) : result float :=
  match x, y with
  | PyInt a, PyInt b => int_true_divide a b
  | _, _ =>
      fx ← py_float x;
      fy ← py_float y;
      if float_is_zero fy then Raised ZeroDivisionError
      else Ok (SFdiv prec emax fx fy)
  end.

(** [int(x)]: a float is truncated towards zero; NaN and the infinities
    raise. *)
Definition py_int (x : pynum) : result Z :=
  match x with
  | PyInt z => Ok z
  | PyFloat (S754_zero _) => Ok 0
  | PyFloat (S754_finite s m e) =>
      Ok (cond_Zopp s (if 0 <=? e then Z.shiftl (Zpos m) e
                       else Z.shiftr (Zpos m) (- e)))
  | PyFloat S754_nan => Raised ValueError
  | PyFloat (S754_infinity _) => Raised OverflowError
  end.

(** [f == z] for a float and an int compares the two numbers exactly. *)
Definition float_eqb_int (f : float) (z : Z) : bool :=
  match f with
  | S754_zero _ => z =? 0
  | S754_finite s m e =>
      if 0 <=? e then cond_Zopp s (Z.shiftl (Zpos m) e) =? z
      else cond_Zopp s (Zpos m) =? Z.shiftl z (- e)
  | _ => false
  end.

(** [x == y] *)
Definition py_eqb (x y : pynum) : bool :=
  match x, y with
  | PyInt a, PyInt b => a =? b
  | PyFloat f, PyFloat g => SFeqb f g
  | PyFloat f, PyInt b => float_eqb_int f b
  | PyInt a, PyFloat g => float_eqb_int g a
  end.

(** [10**dec] for a non-negative [dec]. *)
Definition pow10 (dec : N) : Z := 10 ^ Z.of_N dec.

(** [has_sign s f]: the float [f] is a number (a zero, a finite number or
    an infinity) with sign bit [s]. *)
Definition has_sign (s : bool) (f : float) : Prop :=
  match f with
  | S754_zero s' | S754_infinity s' | S754_finite s' _ _ => s' = s
  | S754_nan => False
  end.

(** Whether [float(10**dec)] returns, that is, whether [10**dec] is in the
    range of a float. *)
Definition converts (dec : nat) : bool :=
  match float_of_int (pow10 (N.of_nat dec)) with
  | Ok _ => true
  | Raised _ => false
  end.

End PyNum.

(** ** Python values *)

(** The values that cross the interfaces of the modelled code: call
    arguments, call results and the content of a JSON document.  A [dict]
    with string keys is a [gmap]. *)
Inductive value : Type :=
| VNone
| VBool (b : bool)
| VInt (z : Z)
| VFloat (f : PyNum.float)
| VStr (s : string)
| VList (l : list value)
| VDict (d : gmap string value).

(** [o.get(key)] and [o.get(key, None)]: only a dict has the method; on
    [None] and on every other value the attribute lookup fails. *)
Definition dict_get (o : value) (key : string) : result value :=
  match o with
  | VDict d => Ok (default VNone (d !! key))
  | _ => Raised AttributeError
  end.

(** ** ocean_lib/ocean/util.py *)

Module Util.
Import PyNum.

Definition WEB3_INFURA_PROJECT_ID : string := "357f2fe737db4304bd2f7285c5602d0d".

Definition GANACHE_URL : string := "http://127.0.0.1:8545".

Definition SUPPORTED_NETWORK_NAMES : gset string :=
  {[ "rinkeby"; "kovan"; "ganache"; "mainnet"; "ropsten" ]}.

Definition get_infura_url (infura_id network : string) : string :=
  ("wss://" ++ network ++ ".infura.io/ws/v3/" ++ infura_id)%string.

(** The two provider classes, of web3 and of [web3_overrides]; each
    records the endpoint it was built with. *)
Inductive provider : Type :=
| CustomHTTPProvider (endpoint_uri : string)
| WebsocketProvider (endpoint_uri : string).

(** [s.startswith(p)] *)
Definition startswith (s p : string) : bool := String.prefix p s.

Definition get_web3_connection_provider (network_url : string) : result provider :=
  let network_url :=
    if String.eqb network_url "ganache" then GANACHE_URL else network_url in
  if startswith network_url "http" then
    Ok (CustomHTTPProvider network_url)
  else
    network_url ←
      (if negb (startswith network_url "ws") then
         if bool_decide (network_url ∈ SUPPORTED_NETWORK_NAMES)
         then Ok (get_infura_url WEB3_INFURA_PROJECT_ID network_url)
         else Raised AssertionError
       else Ok network_url);
    Ok (WebsocketProvider network_url).

Definition to_base (amt : pynum) (dec : N) : result Z :=
  x ← py_mul amt (PyInt 1);
  y ← py_mul x (PyInt (pow10 dec));
  py_int y.

Definition to_base_18 (amt : pynum) : result Z := to_base amt 18.

Definition from_base (num_base : pynum) (dec : N) : result float :=
  q ← py_truediv num_base (PyInt (pow10 dec));
  py_float (PyFloat q).

Definition from_base_18 (num_base : pynum) : result float := from_base num_base 18.

(** The attribute [endpoint_uri] of a provider. *)
Definition endpoint_of (p : provider) : string :=
  match p with
  | CustomHTTPProvider endpoint_uri => endpoint_uri
  | WebsocketProvider endpoint_uri => endpoint_uri
  end.

(** The comparison [from_base(to_base(amt, dec), dec) == amt], and the
    same at 18 decimals. *)
Definition round_trip (amt : pynum) (dec : N) : result bool :=
  num_base ← to_base amt dec;
  back ← from_base (PyInt num_base) dec;
  Ok (py_eqb (PyFloat back) amt).

Definition round_trip_18 (amt : pynum) : result bool :=
  num_base ← to_base_18 amt;
  back ← from_base_18 (PyInt num_base);
  Ok (py_eqb (PyFloat back) amt).

(** The floats 0.5 and 2{^-70}. *)
Definition half : float := S754_finite false 4503599627370496 (-53).
Definition tiny : float := S754_finite false 4503599627370496 (-122).

(** The float 2363.0, a float whose value is a whole number. *)
Definition whole : float := S754_finite false 5196291952869376 (-41).

(** The configuration object: [address_file] is [None] or a string. *)
Record Config : Type := { address_file : option string }.

(** What a path of the file system leads to, when it exists: a file that
    can be opened and read, a directory, or a file that the process may
    not open. *)
Inductive fs_entry : Type :=
| RegularFile (text : string)
| Directory
| Unreadable.

(** [open(_file)] on an existing path, and the text that reading gives. *)
Definition py_open (entry : fs_entry) : result string :=
  match entry with
  | RegularFile text => Ok text
  | Directory => Raised IsADirectoryError
  | Unreadable => Raised PermissionError
  end.

Section Environment.

(** What the helpers read from outside the module: the file system (the
    paths that exist, for [os.path.exists], and what each leads to, for
    [open]), the JSON parser [json.load], the connected network's name
    [Web3Helper.get_network_name()], the configuration
    [ConfigProvider.get_config()] and the contract names
    [DTFactory.CONTRACT_NAME] and [SFactory.CONTRACT_NAME]. *)
Variable fs : gmap string fs_entry.
Variable json_load : string -> result value.
Variable get_network_name : string.
Variable get_config : Config.
Variable DTFactory_CONTRACT_NAME : string.
Variable SFactory_CONTRACT_NAME : string.

Definition get_contracts_addresses (network : string) (config : Config) : result value :=
  match address_file config with
  | None => Ok VNone                        (* not _file *)
  | Some _file =>
      if String.eqb _file "" then Ok VNone  (* not _file *)
      else
        match fs !! _file with
        | None => Ok VNone                  (* not os.path.exists(_file) *)
        | Some entry =>
            text ← py_open entry;
            addresses ← json_load text;
            dict_get addresses network
        end
  end.

Definition get_dtfactory_address (network : option string) : result value :=
  let network := default get_network_name network in
  addresses ← get_contracts_addresses network get_config;
  dict_get addresses DTFactory_CONTRACT_NAME.

Definition get_sfactory_address (network : option string) : result value :=
  let network := default get_network_name network in
  addresses ← get_contracts_addresses network get_config;
  dict_get addresses SFactory_CONTRACT_NAME.

Definition get_ocean_token_address (network : option string) : result value :=
  let network := default get_network_name network in
  addresses ← get_contracts_addresses network get_config;
  dict_get addresses "Ocean".

(** The address file is read when [address_file] is set to a non-empty
    path that exists and can be opened; [text] is then what [open] gives
    to [json.load]. *)
Definition file_text (config : Config) (text : string) : Prop :=
  exists _file,
    address_file config = Some _file /\ _file <> ""
    /\ fs !! _file = Some (RegularFile text).

End Environment.

(** An address file that lists one network, and a parser that reads it:
    the file holds the JSON object with the one key 'ganache', whose
    value is the object that maps 'DTFactory' to '0xabc' (the text is
    written here without its quotation marks). *)
Definition example_file : string := "/ocean/address.json".

Definition example_text : string := "{ganache: {DTFactory: 0xabc}}".

(** Beside it: a file that holds a JSON list of two strings (its text,
    too, is written without the quotation marks), a file whose text is
    not JSON, and the directory of the three. *)
Definition list_file : string := "/ocean/list.json".

Definition list_text : string := "[ganache, kovan]".

Definition broken_file : string := "/ocean/broken.json".

Definition broken_text : string := "{ganache: ".

Definition example_fs : gmap string fs_entry :=
  {[ example_file := RegularFile example_text;
     list_file := RegularFile list_text;
     broken_file := RegularFile broken_text;
     "/ocean" := Directory ]}.

Definition example_json_load (text : string) : result value :=
  if String.eqb text example_text
  then Ok (VDict {[ "ganache" := VDict {[ "DTFactory" := VStr "0xabc" ]} ]})
  else if String.eqb text list_text
  then Ok (VList [VStr "ganache"; VStr "kovan"])
  else Raised JSONDecodeError.

Definition example_config : Config := {| address_file := Some example_file |}.

End Util.

(** ** Calls that leave the process *)

Module Remote.

Section Prog.

(** [Wallet] is the class of [ocean_lib.web3_internal.wallet];
    [remote_error] is whatever the call channel surfaces (a rejected
    transaction, a revert reason, a lost connection); [chain] is the state
    of the external system.  The base class of the wrappers, which
    defines [send_transaction], [contract] and [events], is outside the
    modelled files: what it does with a request is the channel's
    business, and the channel has no access to the wrapper's
    attributes. *)
Context {Wallet remote_error chain : Type}.

(** The three ways the wrapper reaches the contract: the method
    [send_transaction] inherited from the base class, a member of
    [self.contract.caller] and a member of [self.events]. *)
Inductive request : Type :=
| send_transaction (fn_name : string) (fn_args : list value)
    (from_wallet : Wallet) (transact : option (gmap string value))
| contract_caller (fn_name : string) (fn_args : list value)
| contract_events (name : string).

(** A method body: it returns, raises, performs a remote call and goes on
    with the answer, or reads or assigns an attribute of the wrapper
    object or a module-level variable. *)
Inductive prog (A : Type) : Type :=
| Return (a : A)
| Raise (e : exn)
| Call (r : request) (k : value -> prog A)
| GetAttr (name : string) (k : value -> prog A)
| SetAttr (name : string) (v : value) (k : prog A).

(** The external system answers a request with an error or a value and
    moves to a new state. *)
Definition channel : Type := request -> chain -> (remote_error + value) * chain.

Inductive failure : Type :=
| RemoteFailure (r : remote_error)
| LocalFailure (e : exn).

Record execution (A : Type) : Type := Execution {
  outcome : failure + A;
  attrs_after : gmap string value;
  chain_after : chain;
  trace : list (request * (remote_error + value))
}.

End Prog.

Arguments request : clear implicits.
Arguments prog : clear implicits.
Arguments channel : clear implicits.
Arguments failure : clear implicits.
Arguments execution : clear implicits.
Arguments Return {Wallet A} a.
Arguments Raise {Wallet A} e.
Arguments Call {Wallet A} r k.
Arguments GetAttr {Wallet A} name k.
Arguments SetAttr {Wallet A} name v k.
Arguments Execution {Wallet remote_error chain A}.
Arguments outcome {Wallet remote_error chain A}.
Arguments attrs_after {Wallet remote_error chain A}.
Arguments chain_after {Wallet remote_error chain A}.
Arguments trace {Wallet remote_error chain A}.
Arguments RemoteFailure {remote_error} r.
Arguments LocalFailure {remote_error} e.

(** Running a body against a channel, from the attributes [attrs] and the
    external state [c].  An error of the channel ends the run: the
    wrappers catch nothing. *)
Fixpoint run {Wallet remote_error chain A : Type}
    (ch : channel Wallet remote_error chain) (p : prog Wallet A)
    (attrs : gmap string value) (c : chain)
  : execution Wallet remote_error chain A :=
  match p with
  | Return a => Execution (inr a) attrs c []
  | Raise e => Execution (inl (LocalFailure e)) attrs c []
  | Call r k =>
      let '(answer, c') := ch r c in
      match answer with
      | inl err => Execution (inl (RemoteFailure err)) attrs c' [(r, answer)]
      | inr v =>
          let ex := run ch (k v) attrs c' in
          Execution (outcome ex) (attrs_after ex) (chain_after ex)
                    ((r, answer) :: trace ex)
      end
  | GetAttr name k =>
      match attrs !! name with
      | Some v => run ch (k v) attrs c
      | None => Execution (inl (LocalFailure AttributeError)) attrs c []
      end
  | SetAttr name v k => run ch k (<[name := v]> attrs) c
  end.

(** A function that touches nothing outside its arguments, as a body. *)
Definition lift {Wallet A : Type} (r : result A) : prog Wallet A :=
  match r with
  | Ok a => Return a
  | Raised e => Raise e
  end.

(** The answers a run received, in order. *)
Definition responses {Wallet remote_error chain A : Type}
    (ex : execution Wallet remote_error chain A) : list (remote_error + value) :=
  (trace ex).*2.

End Remote.

(** ** ocean_lib/models/v4/bpool.py *)

Module BPool.
Import Remote.

(** The structure [BPoolInitialized] of [models_structures]: the seven
    attributes that [initialize] reads. *)
Record BPoolInitialized : Type := {
  controller : value;
  factory : value;
  swap_fees : value;
  public_swap : value;
  finalized : value;
  tokens : value;
  fee_collectors : value
}.

Definition CONTRACT_NAME : string := "BPool".
Definition EVENT_LOG_SWAP : string := "LOG_SWAP".
Definition EVENT_LOG_JOIN : string := "LOG_JOIN".
Definition EVENT_LOG_EXIT : string := "LOG_EXIT".
Definition EVENT_LOG_CALL : string := "LOG_CALL".
Definition EVENT_LOG_BPT : string := "LOG_BPT".

(** Arguments are typed as the annotations say ([str], [int],
    [List[int]]) and are passed on as Python values.  The class
    decorator [@enforce_types] belongs to a library outside the
    repository and is not modelled. *)
Definition ints (l : list Z) : value := VList (VInt <$> l).

Section Methods.

Variable Wallet : Type.

(** [balancer_constants.GASLIMIT_BFACTORY_NEWBPOOL] *)
Variable GASLIMIT_BFACTORY_NEWBPOOL : Z.

Abbreviation body := (prog Wallet value).

Definition event_LOG_SWAP : body := Call (contract_events "LOG_SWAP") Return.
Definition event_LOG_JOIN : body := Call (contract_events "LOG_JOIN") Return.
Definition event_LOG_EXIT : body := Call (contract_events "LOG_EXIT") Return.
Definition event_LOG_CALL : body := Call (contract_events "LOG_CALL") Return.
Definition event_LOG_BPT : body := Call (contract_events "LOG_BPT") Return.

Definition initialize (bpool_initialized : BPoolInitialized) (from_wallet : Wallet) : body :=
  Call (send_transaction "initialize"
          [ controller bpool_initialized;
            factory bpool_initialized;
            swap_fees bpool_initialized;
            public_swap bpool_initialized;
            finalized bpool_initialized;
            tokens bpool_initialized;
            fee_collectors bpool_initialized ]
          from_wallet None)
       Return.

Definition setup (data_token : string) (data_token_amount data_token_weight : Z)
    (base_token : string) (base_token_amount base_token_weight swap_fee : Z)
    (from_wallet : Wallet) : body :=
  Call (send_transaction "setup"
          [ VStr data_token; VInt data_token_amount; VInt data_token_weight;
            VStr base_token; VInt base_token_amount; VInt base_token_weight;
            VInt swap_fee ]
          from_wallet
          (Some {[ "gas" := VInt GASLIMIT_BFACTORY_NEWBPOOL ]}))
       (fun tx_id => Return tx_id).

Definition is_public_pool : body := Call (contract_caller "isPublicSwap" []) Return.

Definition opf_fee : body := Call (contract_caller "getOPFFee" []) Return.

Definition community_fee (address : string) : body :=
  Call (contract_caller "communityFees" [VStr address]) Return.

Definition market_fee (address : string) : body :=
  Call (contract_caller "marketFees" [VStr address]) Return.

Definition is_finalized : body := Call (contract_caller "isFinalized" []) Return.

Definition is_bound (token_address : string) : body :=
  Call (contract_caller "isBound" [VStr token_address]) Return.

Definition get_num_tokens : body := Call (contract_caller "getNumTokens" []) Return.

Definition get_current_tokens : body := Call (contract_caller "getCurrentTokens" []) Return.

Definition get_final_tokens : body := Call (contract_caller "getFinalTokens" []) Return.

Definition collect_opf (dst : string) (from_wallet : Wallet) : body :=
  Call (send_transaction "collectOPF" [VStr dst] from_wallet None) Return.

Definition collect_market_fee (dst : string) (from_wallet : Wallet) : body :=
  Call (send_transaction "collectMarketFee" [VStr dst] from_wallet None) Return.

Definition update_market_fee_collector (new_collector : string) (from_wallet : Wallet) : body :=
  Call (send_transaction "updateMarketFeeCollector" [VStr new_collector] from_wallet None)
       Return.

Definition get_denormalized_weight (token_address : string) : body :=
  Call (contract_caller "getDenormalizedWeight" [VStr token_address]) Return.

Definition get_total_denormalized_weight : body :=
  Call (contract_caller "getTotalDenormalizedWeight" []) Return.

Definition get_normalized_weight (token_address : string) : body :=
  Call (contract_caller "getNormalizedWeight" [VStr token_address]) Return.

Definition get_balance (token_address : string) : body :=
  Call (contract_caller "getBalance" [VStr token_address]) Return.

Definition get_swap_fee : body := Call (contract_caller "getSwapFee" []) Return.

Definition get_controller : body := Call (contract_caller "getController" []) Return.

Definition get_data_token_address : body :=
  Call (contract_caller "getDataTokenAddress" []) Return.

Definition get_base_token_address : body :=
  Call (contract_caller "getBaseTokenAddress" []) Return.

Definition set_swap_fee (swap_fee : Z) (from_wallet : Wallet) : body :=
  Call (send_transaction "setSwapFee" [VInt swap_fee] from_wallet None) Return.

Definition finalize (from_wallet : Wallet) : body :=
  Call (send_transaction "finalize" [] from_wallet None) Return.

Definition bind (token_address : string) (balance weight : Z) (from_wallet : Wallet) : body :=
  Call (send_transaction "bind" [VStr token_address; VInt balance; VInt weight]
          from_wallet None)
       Return.

Definition rebind (token_address : string) (balance weight : Z) (from_wallet : Wallet) : body :=
  Call (send_transaction "rebind" [VStr token_address; VInt balance; VInt weight]
          from_wallet None)
       Return.

Definition get_spot_price (token_in token_out : string) : body :=
  Call (contract_caller "getSpotPrice" [VStr token_in; VStr token_out]) Return.

Definition join_pool (pool_amount_out : Z) (max_amounts_in : list Z) (from_wallet : Wallet) : body :=
  Call (send_transaction "joinPool" [VInt pool_amount_out; ints max_amounts_in]
          from_wallet None)
       Return.

Definition exit_pool (pool_amount_in : Z) (min_amounts_out : list Z) (from_wallet : Wallet) : body :=
  Call (send_transaction "exitPool" [VInt pool_amount_in; ints min_amounts_out]
          from_wallet None)
       Return.

Definition swap_exact_amount_in (tokenIn_address : string) (tokenAmountIn : Z)
    (tokenOut_address : string) (minAmountOut maxPrice : Z) (from_wallet : Wallet) : body :=
  Call (send_transaction "swapExactAmountIn"
          [ VStr tokenIn_address; VInt tokenAmountIn; VStr tokenOut_address;
            VInt minAmountOut; VInt maxPrice ]
          from_wallet None)
       Return.

Definition swap_exact_amount_out (tokenIn_address : string) (maxAmountIn : Z)
    (tokenOut_address : string) (tokenAmountOut maxPrice : Z) (from_wallet : Wallet) : body :=
  Call (send_transaction "swapExactAmountOut"
          [ VStr tokenIn_address; VInt maxAmountIn; VStr tokenOut_address;
            VInt tokenAmountOut; VInt maxPrice ]
          from_wallet None)
       Return.

Definition join_swap_extern_amount_in (tokenIn_address : string)
    (tokenAmountIn minPoolAmountOut : Z) (from_wallet : Wallet) : body :=
  Call (send_transaction "joinswapExternAmountIn"
          [VStr tokenIn_address; VInt tokenAmountIn; VInt minPoolAmountOut]
          from_wallet None)
       Return.

Definition join_swap_pool_amount_out (tokenIn_address : string)
    (poolAmountOut maxAmountIn : Z) (from_wallet : Wallet) : body :=
  Call (send_transaction "joinswapPoolAmountOut"
          [VStr tokenIn_address; VInt poolAmountOut; VInt maxAmountIn]
          from_wallet None)
       Return.

Definition exit_swap_pool_amount_in (tokenOut_address : string)
    (poolAmountIn minAmountOut : Z) (from_wallet : Wallet) : body :=
  Call (send_transaction "exitswapPoolAmountIn"
          [VStr tokenOut_address; VInt poolAmountIn; VInt minAmountOut]
          from_wallet None)
       Return.

Definition exit_swap_extern_amount_out (tokenOut_address : string)
    (tokenAmountOut maxPoolAmountIn : Z) (from_wallet : Wallet) : body :=
  Call (send_transaction "exitswapExternAmountOut"
          [VStr tokenOut_address; VInt tokenAmountOut; VInt maxPoolAmountIn]
          from_wallet None)
       Return.

(** *** The public interface as data

    One constructor per public member of the class, with the arguments of
    a call; [body_of] is the body the call executes. *)
Inductive invocation : Type :=
| Event_LOG_SWAP
| Event_LOG_JOIN
| Event_LOG_EXIT
| Event_LOG_CALL
| Event_LOG_BPT
| Initialize (bpool_initialized : BPoolInitialized) (from_wallet : Wallet)
| Setup (data_token : string) (data_token_amount data_token_weight : Z)
    (base_token : string) (base_token_amount base_token_weight swap_fee : Z)
    (from_wallet : Wallet)
| Is_public_pool
| Opf_fee
| Community_fee (address : string)
| Market_fee (address : string)
| Is_finalized
| Is_bound (token_address : string)
| Get_num_tokens
| Get_current_tokens
| Get_final_tokens
| Collect_opf (dst : string) (from_wallet : Wallet)
| Collect_market_fee (dst : string) (from_wallet : Wallet)
| Update_market_fee_collector (new_collector : string) (from_wallet : Wallet)
| Get_denormalized_weight (token_address : string)
| Get_total_denormalized_weight
| Get_normalized_weight (token_address : string)
| Get_balance (token_address : string)
| Get_swap_fee
| Get_controller
| Get_data_token_address
| Get_base_token_address
| Set_swap_fee (swap_fee : Z) (from_wallet : Wallet)
| Finalize (from_wallet : Wallet)
| Bind (token_address : string) (balance weight : Z) (from_wallet : Wallet)
| Rebind (token_address : string) (balance weight : Z) (from_wallet : Wallet)
| Get_spot_price (token_in token_out : string)
| Join_pool (pool_amount_out : Z) (max_amounts_in : list Z) (from_wallet : Wallet)
| Exit_pool (pool_amount_in : Z) (min_amounts_out : list Z) (from_wallet : Wallet)
| Swap_exact_amount_in (tokenIn_address : string) (tokenAmountIn : Z)
    (tokenOut_address : string) (minAmountOut maxPrice : Z) (from_wallet : Wallet)
| Swap_exact_amount_out (tokenIn_address : string) (maxAmountIn : Z)
    (tokenOut_address : string) (tokenAmountOut maxPrice : Z) (from_wallet : Wallet)
| Join_swap_extern_amount_in (tokenIn_address : string)
    (tokenAmountIn minPoolAmountOut : Z) (from_wallet : Wallet)
| Join_swap_pool_amount_out (tokenIn_address : string)
    (poolAmountOut maxAmountIn : Z) (from_wallet : Wallet)
| Exit_swap_pool_amount_in (tokenOut_address : string)
    (poolAmountIn minAmountOut : Z) (from_wallet : Wallet)
| Exit_swap_extern_amount_out (tokenOut_address : string)
    (tokenAmountOut maxPoolAmountIn : Z) (from_wallet : Wallet).

Definition body_of (i : invocation) : body :=
  match i with
  | Event_LOG_SWAP => event_LOG_SWAP
  | Event_LOG_JOIN => event_LOG_JOIN
  | Event_LOG_EXIT => event_LOG_EXIT
  | Event_LOG_CALL => event_LOG_CALL
  | Event_LOG_BPT => event_LOG_BPT
  | Initialize b w => initialize b w
  | Setup dt dta dtw bt bta btw fee w => setup dt dta dtw bt bta btw fee w
  | Is_public_pool => is_public_pool
  | Opf_fee => opf_fee
  | Community_fee a => community_fee a
  | Market_fee a => market_fee a
  | Is_finalized => is_finalized
  | Is_bound t => is_bound t
  | Get_num_tokens => get_num_tokens
  | Get_current_tokens => get_current_tokens
  | Get_final_tokens => get_final_tokens
  | Collect_opf dst w => collect_opf dst w
  | Collect_market_fee dst w => collect_market_fee dst w
  | Update_market_fee_collector c w => update_market_fee_collector c w
  | Get_denormalized_weight t => get_denormalized_weight t
  | Get_total_denormalized_weight => get_total_denormalized_weight
  | Get_normalized_weight t => get_normalized_weight t
  | Get_balance t => get_balance t
  | Get_swap_fee => get_swap_fee
  | Get_controller => get_controller
  | Get_data_token_address => get_data_token_address
  | Get_base_token_address => get_base_token_address
  | Set_swap_fee fee w => set_swap_fee fee w
  | Finalize w => finalize w
  | Bind t b wt w => bind t b wt w
  | Rebind t b wt w => rebind t b wt w
  | Get_spot_price ti to => get_spot_price ti to
  | Join_pool out ins w => join_pool out ins w
  | Exit_pool inp outs w => exit_pool inp outs w
  | Swap_exact_amount_in ti a to m p w => swap_exact_amount_in ti a to m p w
  | Swap_exact_amount_out ti a to m p w => swap_exact_amount_out ti a to m p w
  | Join_swap_extern_amount_in t a b w => join_swap_extern_amount_in t a b w
  | Join_swap_pool_amount_out t a b w => join_swap_pool_amount_out t a b w
  | Exit_swap_pool_amount_in t a b w => exit_swap_pool_amount_in t a b w
  | Exit_swap_extern_amount_out t a b w => exit_swap_extern_amount_out t a b w
  end.

(** *** What a pass-through is expected to send

    The three tables below are read off the signatures, not the bodies:
    which kind of member a call is, the wallet it was given, and the
    arguments the caller supplied, in the order of the signature (for
    [initialize], the attributes of the supplied structure). *)
Inductive member_kind : Type :=
| Transaction
| Query
| EventProperty.

Definition kind_of (i : invocation) : member_kind :=
  match i with
  | Event_LOG_SWAP | Event_LOG_JOIN | Event_LOG_EXIT | Event_LOG_CALL
  | Event_LOG_BPT => EventProperty
  | Initialize _ _ | Setup _ _ _ _ _ _ _ _ | Collect_opf _ _
  | Collect_market_fee _ _ | Update_market_fee_collector _ _
  | Set_swap_fee _ _ | Finalize _ | Bind _ _ _ _ | Rebind _ _ _ _
  | Join_pool _ _ _ | Exit_pool _ _ _ | Swap_exact_amount_in _ _ _ _ _ _
  | Swap_exact_amount_out _ _ _ _ _ _ | Join_swap_extern_amount_in _ _ _ _
  | Join_swap_pool_amount_out _ _ _ _ | Exit_swap_pool_amount_in _ _ _ _
  | Exit_swap_extern_amount_out _ _ _ _ => Transaction
  | _ => Query
  end.

Definition wallet_of (i : invocation) : option Wallet :=
  match i with
  | Initialize _ w | Setup _ _ _ _ _ _ _ w | Collect_opf _ w
  | Collect_market_fee _ w | Update_market_fee_collector _ w
  | Set_swap_fee _ w | Finalize w | Bind _ _ _ w | Rebind _ _ _ w
  | Join_pool _ _ w | Exit_pool _ _ w | Swap_exact_amount_in _ _ _ _ _ w
  | Swap_exact_amount_out _ _ _ _ _ w | Join_swap_extern_amount_in _ _ _ w
  | Join_swap_pool_amount_out _ _ _ w | Exit_swap_pool_amount_in _ _ _ w
  | Exit_swap_extern_amount_out _ _ _ w => Some w
  | _ => None
  end.

Definition supplied_args (i : invocation) : list value :=
  match i with
  | Initialize b _ =>
      [ controller b; factory b; swap_fees b; public_swap b; finalized b;
        tokens b; fee_collectors b ]
  | Setup dt dta dtw bt bta btw fee _ =>
      [ VStr dt; VInt dta; VInt dtw; VStr bt; VInt bta; VInt btw; VInt fee ]
  | Community_fee a | Market_fee a => [VStr a]
  | Is_bound t | Get_denormalized_weight t | Get_normalized_weight t
  | Get_balance t => [VStr t]
  | Collect_opf dst _ | Collect_market_fee dst _ => [VStr dst]
  | Update_market_fee_collector c _ => [VStr c]
  | Set_swap_fee fee _ => [VInt fee]
  | Bind t b wt _ | Rebind t b wt _ => [VStr t; VInt b; VInt wt]
  | Get_spot_price ti to => [VStr ti; VStr to]
  | Join_pool a l _ | Exit_pool a l _ => [VInt a; ints l]
  | Swap_exact_amount_in ti a to m p _ | Swap_exact_amount_out ti a to m p _ =>
      [VStr ti; VInt a; VStr to; VInt m; VInt p]
  | Join_swap_extern_amount_in t a b _ | Join_swap_pool_amount_out t a b _
  | Exit_swap_pool_amount_in t a b _ | Exit_swap_extern_amount_out t a b _ =>
      [VStr t; VInt a; VInt b]
  | _ => []
  end.

(** The name of the contract member behind each wrapper. *)
Definition remote_name (i : invocation) : string :=
  match i with
  | Event_LOG_SWAP => EVENT_LOG_SWAP
  | Event_LOG_JOIN => EVENT_LOG_JOIN
  | Event_LOG_EXIT => EVENT_LOG_EXIT
  | Event_LOG_CALL => EVENT_LOG_CALL
  | Event_LOG_BPT => EVENT_LOG_BPT
  | Initialize _ _ => "initialize"
  | Setup _ _ _ _ _ _ _ _ => "setup"
  | Is_public_pool => "isPublicSwap"
  | Opf_fee => "getOPFFee"
  | Community_fee _ => "communityFees"
  | Market_fee _ => "marketFees"
  | Is_finalized => "isFinalized"
  | Is_bound _ => "isBound"
  | Get_num_tokens => "getNumTokens"
  | Get_current_tokens => "getCurrentTokens"
  | Get_final_tokens => "getFinalTokens"
  | Collect_opf _ _ => "collectOPF"
  | Collect_market_fee _ _ => "collectMarketFee"
  | Update_market_fee_collector _ _ => "updateMarketFeeCollector"
  | Get_denormalized_weight _ => "getDenormalizedWeight"
  | Get_total_denormalized_weight => "getTotalDenormalizedWeight"
  | Get_normalized_weight _ => "getNormalizedWeight"
  | Get_balance _ => "getBalance"
  | Get_swap_fee => "getSwapFee"
  | Get_controller => "getController"
  | Get_data_token_address => "getDataTokenAddress"
  | Get_base_token_address => "getBaseTokenAddress"
  | Set_swap_fee _ _ => "setSwapFee"
  | Finalize _ => "finalize"
  | Bind _ _ _ _ => "bind"
  | Rebind _ _ _ _ => "rebind"
  | Get_spot_price _ _ => "getSpotPrice"
  | Join_pool _ _ _ => "joinPool"
  | Exit_pool _ _ _ => "exitPool"
  | Swap_exact_amount_in _ _ _ _ _ _ => "swapExactAmountIn"
  | Swap_exact_amount_out _ _ _ _ _ _ => "swapExactAmountOut"
  | Join_swap_extern_amount_in _ _ _ _ => "joinswapExternAmountIn"
  | Join_swap_pool_amount_out _ _ _ _ => "joinswapPoolAmountOut"
  | Exit_swap_pool_amount_in _ _ _ _ => "exitswapPoolAmountIn"
  | Exit_swap_extern_amount_out _ _ _ _ => "exitswapExternAmountOut"
  end.

(** The request of a call that passes on the caller's arguments and
    nothing else. *)
Definition plain_request (i : invocation) : request Wallet :=
  match wallet_of i, kind_of i with
  | Some w, _ => send_transaction (remote_name i) (supplied_args i) w None
  | None, EventProperty => contract_events (remote_name i)
  | None, _ => contract_caller (remote_name i) (supplied_args i)
  end.

(** The request each call does send: [setup] adds a gas limit to the
    transaction. *)
Definition transact_of (i : invocation) : option (gmap string value) :=
  match i with
  | Setup _ _ _ _ _ _ _ _ => Some {[ "gas" := VInt GASLIMIT_BFACTORY_NEWBPOOL ]}
  | _ => None
  end.

Definition request_of (i : invocation) : request Wallet :=
  match wallet_of i, kind_of i with
  | Some w, _ => send_transaction (remote_name i) (supplied_args i) w (transact_of i)
  | None, EventProperty => contract_events (remote_name i)
  | None, _ => contract_caller (remote_name i) (supplied_args i)
  end.

Section Runs.

Context {remote_error chain : Type}.

Abbreviation channel := (Remote.channel Wallet remote_error chain).

(** The answer of the channel to a request, as an outcome. *)
Definition answer_outcome (a : remote_error + value) : failure remote_error + value :=
  match a with
  | inl err => inl (RemoteFailure err)
  | inr v => inr v
  end.

(** A call is a plain pass-through when, against every channel, it sends
    the one request [plain_request] and hands back the answer. *)
Definition plain_pass_through (i : invocation) : Prop :=
  forall (ch : channel) attrs c,
    trace (run ch (body_of i) attrs c) = [(plain_request i, (ch (plain_request i) c).1)]
    /\ outcome (run ch (body_of i) attrs c) = answer_outcome (ch (plain_request i) c).1.

(** Calling the members of [calls] one after the other; a caller may
    catch a failure and go on, so a failed call does not end the
    sequence. *)
Fixpoint run_all (ch : channel) (calls : list invocation)
    (attrs : gmap string value) (c : chain) : gmap string value * chain :=
  match calls with
  | [] => (attrs, c)
  | i :: rest =>
      let ex := run ch (body_of i) attrs c in
      run_all ch rest (attrs_after ex) (chain_after ex)
  end.

(** Two properties a body may have, for the claims about every
    operation of the repository: every failure it surfaces comes from the
    channel; its result is not fixed by its arguments, that is, no single
    outcome is the outcome against every channel. *)
Definition only_remote_errors {A : Type} (p : prog Wallet A) : Prop :=
  forall (ch : channel) attrs c f,
    outcome (run ch p attrs c) = inl f -> exists err, f = RemoteFailure err.

Definition needs_remote {A : Type} (p : prog Wallet A) : Prop :=
  ~ exists o : failure remote_error + A,
      forall (ch : channel) attrs c, outcome (run ch p attrs c) = o.

(** A body is self-contained when one outcome is its outcome against
    every channel and it sends no request. *)
Definition self_contained {A : Type} (p : prog Wallet A) : Prop :=
  exists o : failure remote_error + A,
    forall (ch : channel) attrs c,
      outcome (run ch p attrs c) = o /\ trace (run ch p attrs c) = [].

Definition is_setup (i : invocation) : bool :=
  match i with
  | Setup _ _ _ _ _ _ _ _ => true
  | _ => false
  end.

(** The calls of [calls] made one after the other, as [run_all] makes
    them, with the execution of each. *)
Fixpoint run_each (ch : channel) (calls : list invocation)
    (attrs : gmap string value) (c : chain)
  : list (execution Wallet remote_error chain value) :=
  match calls with
  | [] => []
  | i :: rest =>
      let ex := run ch (body_of i) attrs c in
      ex :: run_each ch rest (attrs_after ex) (chain_after ex)
  end.

End Runs.

End Methods.

(** *** A concrete setting

    The wallet is a name, the channel's errors are revert reasons, the
    external state is a block height, and the gas limit is taken to be
    5000000. *)


Definition always (a : string + value) : Remote.channel string string nat :=
  fun _ height => (a, S height).

Definition setup_example : invocation string :=
  Setup string "0xDT" 1000 9 "0xOCEAN" 100 1 3 "alice".

End BPool.

(** * Properties *)

(** ** Binary64 rounding *)

Module PyNumFacts.
Import PyNum.

(** *** Exact cases of rounding

    The facts about binary64 rounding that the round trip of an integer
    amount needs: a mantissa of 53 bits is kept as it is, an even
    mantissa of 54 bits loses its last bit, and zero stays zero. *)

Lemma digits2_pos_size (p : positive) : digits2_pos p = Pos.size p.
Proof. induction p as [p IH | p IH |]; cbn; congruence. Qed.

Lemma Zdigits2_log2 (n : Z) : 0 < n -> Zdigits2 n = Z.log2 n + 1.
Proof.
  destruct n as [| p | p]; try lia. intros _. cbn [Zdigits2].
  rewrite digits2_pos_size.
  destruct p; cbn; lia.
Qed.

Lemma fexp_at_53 (e : Z) : -1074 <= e -> fexp prec emax (53 + e) - e = 0.
Proof. unfold fexp, emin, prec, emax. lia. Qed.

Lemma exponent_in_range (e : Z) : e <= 971 -> (e <=? emax - prec) = true.
Proof. intros H. apply Z.leb_le. unfold emax, prec. lia. Qed.

Lemma round_aux_canonical (sx : bool) (m : positive) (e : Z) :
  Zpos (digits2_pos m) = 53 -> e <= 971 -> -1074 <= e ->
  binary_round_aux prec emax sx (Zpos m) e loc_Exact = S754_finite sx m e.
Proof.
  intros Hd He He'.
  unfold binary_round_aux, shr_fexp.
  cbn [Zdigits2]. rewrite Hd, fexp_at_53 by lia.
  cbn [shr shr_record_of_loc shr_m loc_of_shr_record round_nearest_even].
  cbn [Zdigits2]. rewrite Hd, fexp_at_53 by lia. cbn [shr shr_m].
  by rewrite exponent_in_range.
Qed.

Lemma round_aux_one_more (sx : bool) (m : positive) (e : Z) :
  Zpos (digits2_pos m) = 53 -> e <= 971 -> -1074 <= e ->
  binary_round_aux prec emax sx (Zpos m~0) (e - 1) loc_Exact = S754_finite sx m e.
Proof.
  intros Hd He He'.
  unfold binary_round_aux, shr_fexp.
  cbn [Zdigits2 digits2_pos]. rewrite Pos2Z.inj_succ, Hd.
  assert (Hf : fexp prec emax (Z.succ 53 + (e - 1)) - (e - 1) = 1)
    by (unfold fexp, emin, prec, emax; lia).
  rewrite Hf.
  cbn [shr shr_record_of_loc shr_m loc_of_shr_record round_nearest_even
       SpecFloat.iter_pos shr_1].
  cbn [orb round_nearest_even Zdigits2].
  rewrite Hd. replace (e - 1 + 1) with e by lia.
  rewrite fexp_at_53 by lia. cbn [shr shr_m].
  by rewrite exponent_in_range.
Qed.

Lemma shr_zero (e n : Z) :
  shr (Build_shr_record 0 false false) e n
  = (Build_shr_record 0 false false, (shr (Build_shr_record 0 false false) e n).2).
Proof.
  destruct n as [| p | p]; try reflexivity. cbn [shr snd]. f_equal.
  induction p as [p IH | p IH |]; cbn [SpecFloat.iter_pos shr_1 orb];
    rewrite ?IH; reflexivity.
Qed.

Lemma round_aux_zero (sx : bool) (e : Z) :
  binary_round_aux prec emax sx 0 e loc_Exact = S754_zero sx.
Proof.
  unfold binary_round_aux, shr_fexp. cbn [shr_record_of_loc].
  rewrite shr_zero.
  cbn [shr_m loc_of_shr_record round_nearest_even shr_record_of_loc].
  by rewrite shr_zero.
Qed.

Lemma new_location_zero (k : Z) : new_location k 0 = loc_Exact.
Proof.
  unfold new_location, new_location_even, new_location_odd.
  destruct (Z.even k); reflexivity.
Qed.

Lemma div_eucl_mul (a k : Z) : 0 < k -> Z.div_eucl (a * k) k = (a, 0).
Proof.
  intros Hk. destruct (Z.div_eucl (a * k) k) as [q r] eqn:E.
  f_equal.
  - transitivity (a * k / k); [unfold Z.div; by rewrite E | apply Z.div_mul; lia].
  - transitivity ((a * k) mod k); [unfold Z.modulo; by rewrite E | apply Z.mod_mul; lia].
Qed.

Lemma div_core_exact (n k : Z) :
  0 < n < 2 ^ 53 -> 0 < k ->
  exists s,
    (s = 53 - Zdigits2 n \/ s = 54 - Zdigits2 n)
    /\ SFdiv_core_binary prec emax (n * k) 0 k 0 = (n * 2 ^ s, - s, loc_Exact).
Proof.
  intros Hn Hk.
  pose proof (Z.log2_mul_below n k ltac:(lia) ltac:(lia)) as Hlo.
  pose proof (Z.log2_mul_above n k ltac:(lia) ltac:(lia)) as Hhi.
  assert (Hl53 : Z.log2 n < 53) by (apply Z.log2_lt_pow2; lia).
  pose proof (Z.log2_nonneg n) as Hl0.
  unfold SFdiv_core_binary.
  rewrite (Zdigits2_log2 (n * k)), (Zdigits2_log2 k), (Zdigits2_log2 n) by lia.
  set (t := Z.log2 (n * k) - Z.log2 k) in *.
  replace (Z.log2 (n * k) + 1 + 0 - (Z.log2 k + 1 + 0)) with t by lia.
  assert (Hf : fexp prec emax t = t - 53) by (unfold fexp, emin, prec, emax; lia).
  rewrite Hf.
  replace (Z.min (t - 53) (0 - 0)) with (t - 53) by lia.
  exists (53 - t). split; [lia |].
  replace (0 - 0 - (t - 53)) with (53 - t) by lia.
  assert (Hm : match 53 - t with
               | Zpos _ => Z.shiftl (n * k) (53 - t)
               | Z0 => n * k
               | Zneg _ => 0
               end = n * 2 ^ (53 - t) * k).
  { destruct (53 - t) eqn:E; [lia | | lia].
    rewrite Z.shiftl_mul_pow2 by lia. lia. }
  rewrite Hm, div_eucl_mul, new_location_zero by lia.
  replace (- (53 - t)) with (t - 53) by lia. reflexivity.
Qed.

(** The quotient of [z * k] by [k] is the float of value [z], for a
    non-zero [z] of at most 53 bits. *)
Lemma int_true_divide_exact (z k : Z) :
  z <> 0 -> Z.abs z < 2 ^ 53 -> 0 < k ->
  exists m,
    Zpos m = Z.abs z * 2 ^ (53 - Zdigits2 (Z.abs z))
    /\ int_true_divide (z * k) k
       = Ok (S754_finite (z <? 0) m (Zdigits2 (Z.abs z) - 53)).
Proof.
  intros Hz Hlt Hk.
  set (n := Z.abs z) in *.
  assert (Hn : 0 < n < 2 ^ 53) by lia.
  assert (Hl53 : Z.log2 n < 53) by (apply Z.log2_lt_pow2; lia).
  pose proof (Z.log2_nonneg n) as Hl0.
  assert (Hd : Zdigits2 n = Z.log2 n + 1) by (apply Zdigits2_log2; lia).
  assert (Hpos : 0 < n * 2 ^ (53 - Zdigits2 n)).
  { apply Z.mul_pos_pos; [lia | apply Z.pow_pos_nonneg; lia]. }
  set (m := Z.to_pos (n * 2 ^ (53 - Zdigits2 n))).
  assert (Hm : Zpos m = n * 2 ^ (53 - Zdigits2 n))
    by (unfold m; rewrite Z2Pos.id; lia).
  exists m. split; [exact Hm |].
  assert (Hdm : Zpos (digits2_pos m) = 53).
  { change (Zpos (digits2_pos m)) with (Zdigits2 (Zpos m)).
    rewrite Zdigits2_log2 by lia. rewrite Hm.
    rewrite Z.log2_mul_pow2 by lia. lia. }
  unfold int_true_divide.
  replace (k =? 0) with false by (symmetry; apply Z.eqb_neq; lia).
  replace (Z.abs (z * k)) with (n * k) by (unfold n; rewrite Z.abs_mul; lia).
  replace (Z.abs k) with k by lia.
  replace (xorb (z * k <? 0) (k <? 0)) with (z <? 0).
  2:{ replace (k <? 0) with false by (symmetry; apply Z.ltb_ge; lia).
      rewrite xorb_false_r.
      destruct (Z.ltb_spec z 0), (Z.ltb_spec (z * k) 0); try reflexivity; nia. }
  destruct (div_core_exact n k Hn Hk) as (s & Hs & ->).
  destruct Hs as [-> | ->].
  - rewrite <- Hm.
    replace (- (53 - Zdigits2 n)) with (Zdigits2 n - 53) by lia.
    by rewrite round_aux_canonical by lia.
  - replace (n * 2 ^ (54 - Zdigits2 n)) with (Zpos m~0).
    2:{ rewrite Pos2Z.inj_xO, Hm.
        replace (54 - Zdigits2 n) with (Z.succ (53 - Zdigits2 n)) by lia.
        rewrite Z.pow_succ_r by lia. lia. }
    replace (- (54 - Zdigits2 n)) with (Zdigits2 n - 53 - 1) by lia.
    by rewrite round_aux_one_more by lia.
Qed.

Lemma int_true_divide_zero (k : Z) :
  0 < k -> int_true_divide 0 k = Ok (S754_zero false).
Proof.
  intros Hk. unfold int_true_divide.
  replace (k =? 0) with false by (symmetry; apply Z.eqb_neq; lia).
  replace (Z.abs k) with k by lia.
  replace (k <? 0) with false by (symmetry; apply Z.ltb_ge; lia).
  unfold SFdiv_core_binary.
  set (s := 0 - 0 - _).
  replace (match s with
           | Zpos _ => Z.shiftl (Z.abs 0) s
           | Z0 => Z.abs 0
           | Zneg _ => 0
           end) with (0 * k).
  2:{ destruct s; cbn [Z.abs]; rewrite ?Z.shiftl_0_l; reflexivity. }
  rewrite div_eucl_mul, new_location_zero by lia.
  by rewrite round_aux_zero.
Qed.

(** The float of value [z] compares equal to the int [z]. *)
Lemma float_eqb_int_exact (z : Z) (m : positive) :
  z <> 0 -> Z.abs z < 2 ^ 53 ->
  Zpos m = Z.abs z * 2 ^ (53 - Zdigits2 (Z.abs z)) ->
  float_eqb_int (S754_finite (z <? 0) m (Zdigits2 (Z.abs z) - 53)) z = true.
Proof.
  intros Hz Hlt Hm.
  assert (Hl53 : Z.log2 (Z.abs z) < 53) by (apply Z.log2_lt_pow2; lia).
  pose proof (Z.log2_nonneg (Z.abs z)) as Hl0.
  assert (Hd : Zdigits2 (Z.abs z) = Z.log2 (Z.abs z) + 1)
    by (apply Zdigits2_log2; lia).
  unfold float_eqb_int.
  destruct (Z.leb_spec 0 (Zdigits2 (Z.abs z) - 53)) as [He | He].
  - assert (E : Zdigits2 (Z.abs z) - 53 = 0) by lia.
    rewrite E, Z.shiftl_0_r, Hm.
    replace (53 - Zdigits2 (Z.abs z)) with 0 by lia.
    apply Z.eqb_eq. destruct (Z.ltb_spec z 0); cbn [cond_Zopp]; lia.
  - rewrite Z.shiftl_mul_pow2 by lia. rewrite Hm.
    replace (- (Zdigits2 (Z.abs z) - 53)) with (53 - Zdigits2 (Z.abs z)) by lia.
    apply Z.eqb_eq. destruct (Z.ltb_spec z 0); cbn [cond_Zopp]; nia.
Qed.

Lemma pow10_pos (dec : N) : 0 < pow10 dec.
Proof. unfold pow10. apply Z.pow_pos_nonneg; lia. Qed.

(** *** Division of two ints is never NaN *)

Lemma shr_1_nonneg (mrs : shr_record) : 0 <= shr_m mrs -> 0 <= shr_m (shr_1 mrs).
Proof.
  destruct mrs as [m r s]. cbn [shr_m].
  destruct m as [| [p | p |] | p]; cbn; lia.
Qed.

Lemma iter_shr_1_nonneg (p : positive) (mrs : shr_record) :
  0 <= shr_m mrs -> 0 <= shr_m (SpecFloat.iter_pos shr_1 p mrs).
Proof.
  revert mrs.
  induction p as [p IH | p IH |]; intros mrs H; cbn [SpecFloat.iter_pos];
    auto using shr_1_nonneg.
Qed.

Lemma shr_nonneg (mrs : shr_record) (e n : Z) :
  0 <= shr_m mrs -> 0 <= shr_m (shr mrs e n).1.
Proof.
  intros H. destruct n as [| p | p]; cbn [shr fst]; auto using iter_shr_1_nonneg.
Qed.

Lemma shr_record_of_loc_m (m : Z) (l : location) : shr_m (shr_record_of_loc m l) = m.
Proof. destruct l as [| []]; reflexivity. Qed.

Lemma round_nearest_even_nonneg (m : Z) (l : location) :
  0 <= m -> 0 <= round_nearest_even m l.
Proof.
  intros H. destruct l as [| []]; cbn [round_nearest_even];
    try destruct (Z.even m); lia.
Qed.

Lemma round_aux_not_nan (sx : bool) (q e : Z) (l : location) :
  0 <= q -> binary_round_aux prec emax sx q e l <> S754_nan.
Proof.
  intros Hq. unfold binary_round_aux, shr_fexp.
  pose proof (shr_nonneg (shr_record_of_loc q l) e
                (fexp prec emax (Zdigits2 q + e) - e)) as H1.
  rewrite shr_record_of_loc_m in H1. specialize (H1 Hq).
  destruct (shr (shr_record_of_loc q l) e _) as [mrs' e'].
  cbn [fst] in H1.
  set (m1 := round_nearest_even (shr_m mrs') (loc_of_shr_record mrs')).
  assert (Hm1 : 0 <= m1) by (apply round_nearest_even_nonneg; exact H1).
  pose proof (shr_nonneg (shr_record_of_loc m1 loc_Exact) e'
                (fexp prec emax (Zdigits2 m1 + e') - e')) as H2.
  rewrite shr_record_of_loc_m in H2. specialize (H2 Hm1).
  destruct (shr (shr_record_of_loc m1 loc_Exact) e' _) as [mrs'' e''].
  cbn [fst] in H2.
  destruct (shr_m mrs'') as [| m | m]; [discriminate | | lia].
  destruct (e'' <=? emax - prec); discriminate.
Qed.

Lemma int_true_divide_not_nan (a b : Z) (f : float) :
  int_true_divide a b = Ok f -> f <> S754_nan.
Proof.
  unfold int_true_divide.
  destruct (Z.eqb_spec b 0) as [| Hb]; [discriminate |].
  unfold SFdiv_core_binary.
  set (s := 0 - 0 - _).
  set (m' := match s with
             | Zpos _ => Z.shiftl (Z.abs a) s
             | Z0 => Z.abs a
             | Zneg _ => 0
             end).
  assert (Hm' : 0 <= m').
  { unfold m'. destruct s; [lia | | lia]. apply Z.shiftl_nonneg. lia. }
  destruct (Z.div_eucl m' (Z.abs b)) as [q r] eqn:E.
  assert (Hq : 0 <= q).
  { replace q with (m' / Z.abs b) by (unfold Z.div; by rewrite E).
    apply Z.div_pos; lia. }
  pose proof (round_aux_not_nan (xorb (a <? 0) (b <? 0)) q
                (Z.min (fexp prec emax (Zdigits2 (Z.abs a) + 0 - (Zdigits2 (Z.abs b) + 0))) (0 - 0))
                (new_location (Z.abs b) r) Hq) as Hnan.
  destruct (binary_round_aux _ _ _ _ _ _); intros [= <-]; congruence.
Qed.

Lemma SFeqb_refl (f : float) : f <> S754_nan -> SFeqb f f = true.
Proof.
  intros Hf. unfold SFeqb, SFcompare.
  destruct f as [s | s | | s m e]; [reflexivity | by destruct s | congruence |].
  rewrite Z.compare_refl.
  change (Pos.compare_cont Eq m m) with (Pos.compare m m).
  rewrite Pos.compare_refl. by destruct s.
Qed.

(** *** Shifting and the shape of a rounded mantissa *)

Lemma shr_1_m (mrs : shr_record) : 0 <= shr_m mrs -> shr_m (shr_1 mrs) = shr_m mrs / 2.
Proof.
  destruct mrs as [m r s]. cbn [shr_m]. intros Hm.
  destruct m as [| [p | p |] | p]; try lia; cbn [shr_1 shr_m].
  - reflexivity.
  - rewrite Pos2Z.inj_xI. apply Z.div_unique with 1; lia.
  - rewrite Pos2Z.inj_xO. apply Z.div_unique with 0; lia.
  - reflexivity.
Qed.

Lemma iter_shr_1_m (p : positive) (mrs : shr_record) :
  0 <= shr_m mrs ->
  shr_m (SpecFloat.iter_pos shr_1 p mrs) = shr_m mrs / 2 ^ Zpos p.
Proof.
  revert mrs.
  induction p as [p IH | p IH |]; intros mrs H; cbn [SpecFloat.iter_pos].
  - rewrite IH by (apply iter_shr_1_nonneg, shr_1_nonneg, H).
    rewrite IH by (apply shr_1_nonneg, H).
    rewrite shr_1_m by exact H.
    rewrite !Z.div_div by lia.
    f_equal. rewrite <- !Z.pow_add_r by lia. rewrite <- (Z.pow_succ_r 2) by lia.
    f_equal. lia.
  - rewrite IH by (apply iter_shr_1_nonneg, H).
    rewrite IH by exact H.
    rewrite !Z.div_div by lia.
    f_equal. rewrite <- !Z.pow_add_r by lia.
    f_equal. lia.
  - apply shr_1_m, H.
Qed.

Lemma shr_spec (mrs : shr_record) (e n : Z) :
  0 <= shr_m mrs ->
  shr_m (shr mrs e n).1 = shr_m mrs / 2 ^ Z.max n 0
  /\ (shr mrs e n).2 = e + Z.max n 0.
Proof.
  intros H. destruct n as [| p | p]; cbn [shr fst snd].
  - cbn. rewrite Z.div_1_r. lia.
  - rewrite iter_shr_1_m by exact H.
    replace (Z.max (Zpos p) 0) with (Zpos p) by lia. done.
  - replace (Z.max (Zneg p) 0) with 0 by lia. cbn. rewrite Z.div_1_r. lia.
Qed.

Lemma round_nearest_even_ge (m : Z) (l : location) : m <= round_nearest_even m l.
Proof.
  destruct l as [| []]; cbn [round_nearest_even]; try destruct (Z.even m); lia.
Qed.

Lemma shifted_mantissa_pos (m k : Z) :
  0 < m -> 0 <= k <= Zdigits2 m - 1 -> 1 <= m / 2 ^ k.
Proof.
  intros Hm Hk.
  apply Z.div_le_lower_bound; [apply Z.pow_pos_nonneg; lia |].
  rewrite Z.mul_1_r.
  rewrite Zdigits2_log2 in Hk by lia.
  pose proof (Z.log2_spec m Hm) as [Hlo _].
  etransitivity; [| exact Hlo]. apply Z.pow_le_mono_r; lia.
Qed.

Lemma Zdigits2_pos (m : Z) : 0 < m -> 1 <= Zdigits2 m.
Proof. intros H. rewrite Zdigits2_log2 by lia. pose proof (Z.log2_nonneg m). lia. Qed.

(** The shape of a rounded positive mantissa. *)
Lemma round_aux_shape (sx : bool) (m e : Z) (l : location) :
  0 < m -> emin prec emax <= e ->
  exists (m'' : positive) (e'' : Z),
    fexp prec emax (Zdigits2 m + e) <= e''
    /\ binary_round_aux prec emax sx m e l
       = if e'' <=? emax - prec then S754_finite sx m'' e'' else S754_infinity sx.
Proof.
  intros Hm He.
  unfold binary_round_aux, shr_fexp.
  set (n1 := fexp prec emax (Zdigits2 m + e) - e).
  pose proof (shr_spec (shr_record_of_loc m l) e n1) as Hs1.
  rewrite shr_record_of_loc_m in Hs1. destruct (Hs1 ltac:(lia)) as [Hm1 He1].
  clear Hs1.
  destruct (shr (shr_record_of_loc m l) e n1) as [mrs' e']. cbn [fst snd] in *.
  pose proof (Zdigits2_pos m Hm) as Hd.
  assert (Hn1 : Z.max n1 0 <= Zdigits2 m - 1).
  { unfold n1, fexp, emin, prec, emax in *. lia. }
  assert (Hm'pos : 1 <= shr_m mrs').
  { rewrite Hm1. apply shifted_mantissa_pos; lia. }
  set (m1 := round_nearest_even (shr_m mrs') (loc_of_shr_record mrs')).
  assert (Hm1pos : 1 <= m1).
  { pose proof (round_nearest_even_ge (shr_m mrs') (loc_of_shr_record mrs')).
    unfold m1. lia. }
  assert (He' : emin prec emax <= e' /\ fexp prec emax (Zdigits2 m + e) <= e').
  { unfold n1, fexp in *. lia. }
  set (n2 := fexp prec emax (Zdigits2 m1 + e') - e').
  pose proof (shr_spec (shr_record_of_loc m1 loc_Exact) e' n2) as Hs2.
  rewrite shr_record_of_loc_m in Hs2. destruct (Hs2 ltac:(lia)) as [Hm2 He2].
  clear Hs2.
  destruct (shr (shr_record_of_loc m1 loc_Exact) e' n2) as [mrs'' e''].
  cbn [fst snd] in *.
  pose proof (Zdigits2_pos m1 ltac:(lia)) as Hd1.
  assert (Hn2 : Z.max n2 0 <= Zdigits2 m1 - 1).
  { unfold n2, fexp, emin, prec, emax in *. lia. }
  assert (Hm''pos : 1 <= shr_m mrs'').
  { rewrite Hm2. apply shifted_mantissa_pos; lia. }
  destruct (shr_m mrs'') as [| m'' | m'']; try lia.
  exists m'', e''. split; [lia | reflexivity].
Qed.

(** *** Converting an int to a float *)

Lemma fexp_ge_emin (x : Z) : emin prec emax <= fexp prec emax x.
Proof. unfold fexp. lia. Qed.

(** A positive int converts to a positive finite float, or overflows. *)
Lemma float_of_int_pos (z : Z) :
  0 < z ->
  float_of_int z = Raised OverflowError
  \/ exists m e, float_of_int z = Ok (S754_finite false m e).
Proof.
  intros Hz. destruct z as [| p | p]; try lia.
  unfold float_of_int. cbn [binary_normalize]. unfold binary_round.
  destruct (shl_align p 0 (fexp prec emax (Zpos (digits2_pos p) + 0)))
    as [mz ez] eqn:E.
  assert (Hez : emin prec emax <= ez).
  { unfold shl_align in E.
    pose proof (fexp_ge_emin (Zpos (digits2_pos p) + 0)).
    destruct (fexp prec emax (Zpos (digits2_pos p) + 0) - 0) eqn:E';
      injection E as <- <-; unfold emin, prec, emax in *; lia. }
  destruct (round_aux_shape false (Zpos mz) ez loc_Exact ltac:(lia) Hez)
    as (m'' & e'' & _ & ->).
  destruct (e'' <=? emax - prec); eauto.
Qed.

Lemma float_of_int_overflow (z : Z) :
  2 ^ 1024 <= z -> float_of_int z = Raised OverflowError.
Proof.
  intros Hz.
  assert (Hpos : 0 < z) by (pose proof (Z.pow_pos_nonneg 2 1024); lia).
  destruct z as [| p | p]; try lia.
  assert (Hd : 1025 <= Zpos (digits2_pos p)).
  { change (Zpos (digits2_pos p)) with (Zdigits2 (Zpos p)).
    rewrite Zdigits2_log2 by lia.
    pose proof (Z.log2_le_mono _ _ Hz) as H.
    rewrite Z.log2_pow2 in H by lia. lia. }
  unfold float_of_int. cbn [binary_normalize]. unfold binary_round.
  assert (Hf : fexp prec emax (Zpos (digits2_pos p) + 0) = Zpos (digits2_pos p) - 53).
  { unfold fexp, emin, prec, emax. lia. }
  assert (E : shl_align p 0 (fexp prec emax (Zpos (digits2_pos p) + 0)) = (p, 0)).
  { unfold shl_align. rewrite Hf.
    destruct (Zpos (digits2_pos p) - 53 - 0) eqn:E'; try reflexivity; lia. }
  rewrite E.
  destruct (round_aux_shape false (Zpos p) 0 loc_Exact ltac:(lia)
              ltac:(unfold emin, prec, emax; lia))
    as (m'' & e'' & He'' & ->).
  cbn [Zdigits2] in He''. rewrite Hf in He''.
  replace (e'' <=? emax - prec) with false; [reflexivity |].
  symmetry. apply Z.leb_gt. unfold emax, prec. lia.
Qed.

Lemma pow10_overflows (dec : N) : (309 <= dec)%N -> 2 ^ 1024 <= pow10 dec.
Proof.
  intros H. unfold pow10.
  transitivity (10 ^ 309); [by vm_compute |].
  apply Z.pow_le_mono_r; lia.
Qed.

Lemma pow10_converts (dec : N) :
  (dec <= 308)%N -> exists m e, float_of_int (pow10 dec) = Ok (S754_finite false m e).
Proof.
  intros H.
  assert (Hall : forallb converts (seq 0 309) = true) by (vm_compute; reflexivity).
  rewrite forallb_forall in Hall.
  specialize (Hall (N.to_nat dec)).
  assert (Hin : In (N.to_nat dec) (seq 0 309)) by (apply in_seq; lia).
  specialize (Hall Hin). unfold converts in Hall. rewrite N2Nat.id in Hall.
  destruct (float_of_int_pos (pow10 dec) (pow10_pos dec)) as [E | E]; [| exact E].
  rewrite E in Hall. discriminate.
Qed.

Lemma float_of_int_one :
  float_of_int 1 = Ok (S754_finite false 4503599627370496 (-52)).
Proof. reflexivity. Qed.

Lemma float_of_int_raises (z : Z) (e : exn) :
  float_of_int z = Raised e -> e = OverflowError.
Proof.
  unfold float_of_int. destruct (binary_normalize prec emax z 0 false); congruence.
Qed.

Lemma int_true_divide_raises (a b : Z) (e : exn) :
  b <> 0 -> int_true_divide a b = Raised e -> e = OverflowError.
Proof.
  intros Hb. unfold int_true_divide.
  destruct (Z.eqb_spec b 0); [contradiction |].
  destruct (SFdiv_core_binary _ _ _ _ _ _) as [[q e'] l].
  destruct (binary_round_aux _ _ _ _ _ _); congruence.
Qed.

Lemma round_aux_opp (sx : bool) (q e : Z) (l : location) :
  binary_round_aux prec emax (negb sx) q e l
  = SFopp (binary_round_aux prec emax sx q e l).
Proof.
  unfold binary_round_aux.
  destruct (shr_fexp prec emax q e l) as [mrs' e'].
  destruct (shr_fexp prec emax _ e' loc_Exact) as [mrs'' e''].
  destruct (shr_m mrs''); [reflexivity | | reflexivity].
  destruct (e'' <=? emax - prec); reflexivity.
Qed.

(** *** Signs *)

Lemma round_aux_has_sign (sx : bool) (q e : Z) (l : location) :
  0 <= q -> has_sign sx (binary_round_aux prec emax sx q e l).
Proof.
  intros Hq. pose proof (round_aux_not_nan sx q e l Hq) as Hnan.
  revert Hnan. unfold binary_round_aux.
  destruct (shr_fexp prec emax q e l) as [mrs' e'].
  destruct (shr_fexp prec emax _ e' loc_Exact) as [mrs'' e''].
  destruct (shr_m mrs''); [done | | done].
  by destruct (e'' <=? emax - prec).
Qed.

Lemma SFmul_has_sign (s : bool) (x : float) (m : positive) (e : Z) :
  has_sign s x -> has_sign s (SFmul prec emax x (S754_finite false m e)).
Proof.
  destruct x as [s' | s' | | s' m' e']; cbn [has_sign SFmul];
    [intros <- | intros <- | intros [] | intros <-];
    rewrite ?xorb_false_r; try done.
  by apply round_aux_has_sign.
Qed.

Lemma py_int_has_sign (s : bool) (y : float) (n : Z) :
  has_sign s y -> py_int (PyFloat y) = Ok n -> if s then n <= 0 else 0 <= n.
Proof.
  destruct y as [s' | s' | | s' m e]; cbn [has_sign py_int];
    [intros <- | intros <- | intros [] | intros <-]; try discriminate.
  - intros [= <-]. by destruct s'.
  - intros [= <-].
    assert (0 <= (if 0 <=? e then Z.shiftl (Zpos m) e else Z.shiftr (Zpos m) (- e))).
    { destruct (0 <=? e); [apply Z.shiftl_nonneg | apply Z.shiftr_nonneg]; lia. }
    destruct s'; cbn [cond_Zopp]; lia.
Qed.

End PyNumFacts.

(** ** The helpers of util.py *)

Module UtilFacts.
Import PyNum PyNumFacts Util.

(** *** The network dispatch *)

Lemma startswith_ws_inv (s : string) :
  startswith s "ws" = true -> exists rest, s = String "w" (String "s" rest).
Proof.
  unfold startswith.
  destruct s as [| a [| b rest]]; cbn [String.prefix]; try discriminate.
  - destruct (ascii_dec "w" a); discriminate.
  - destruct (ascii_dec "w" a) as [<- |]; [| discriminate].
    destruct (ascii_dec "s" b) as [<- |]; [| discriminate].
    eauto.
Qed.

Lemma supported_cases (s : string) :
  s ∈ SUPPORTED_NETWORK_NAMES <->
  s = "ganache" \/ s ∈ ({[ "rinkeby"; "kovan"; "mainnet"; "ropsten" ]} : gset string).
Proof.
  unfold SUPPORTED_NETWORK_NAMES.
  rewrite !elem_of_union, !elem_of_singleton. tauto.
Qed.

Lemma assertion_iff (network_url : string) :
  get_web3_connection_provider network_url = Raised AssertionError <->
  network_url <> "ganache"
  /\ startswith network_url "http" = false
  /\ startswith network_url "ws" = false
  /\ network_url ∉ SUPPORTED_NETWORK_NAMES.
Proof.
  unfold get_web3_connection_provider.
  destruct (String.eqb_spec network_url "ganache") as [-> | Hne].
  - split; [discriminate | intros [H _]; congruence].
  - destruct (startswith network_url "http"); cbn.
    + split; [discriminate | intros (_ & H & _); discriminate].
    + destruct (startswith network_url "ws"); cbn.
      * split; [discriminate | intros (_ & _ & H & _); discriminate].
      * case_bool_decide; cbn; split; try discriminate; tauto.
Qed.

(** C7.  The dispatch of [get_web3_connection_provider]: 'ganache', a
    supported network name, gives the HTTP provider of the local node;
    an input that starts with 'http' gives the HTTP provider of that
    input; an input that starts with 'ws' gives the websocket provider of
    that input, unchanged; one of the four other network names gives the
    websocket provider of its infura address; every remaining input
    raises an assertion error. *)
Theorem get_web3_connection_provider_dispatch :
  ("ganache" ∈ SUPPORTED_NETWORK_NAMES
   /\ get_web3_connection_provider "ganache"
      = Ok (CustomHTTPProvider "http://127.0.0.1:8545"))
  /\ (forall network_url,
        startswith network_url "http" = true ->
        get_web3_connection_provider network_url
        = Ok (CustomHTTPProvider network_url))
  /\ (forall network_url,
        startswith network_url "ws" = true ->
        get_web3_connection_provider network_url
        = Ok (WebsocketProvider network_url))
  /\ (forall network_url,
        network_url ∈ ({[ "rinkeby"; "kovan"; "mainnet"; "ropsten" ]} : gset string) ->
        get_web3_connection_provider network_url
        = Ok (WebsocketProvider
                ("wss://" ++ network_url
                 ++ ".infura.io/ws/v3/357f2fe737db4304bd2f7285c5602d0d")%string))
  /\ (forall network_url,
        network_url <> "ganache" ->
        startswith network_url "http" = false ->
        startswith network_url "ws" = false ->
        network_url ∉ ({[ "rinkeby"; "kovan"; "mainnet"; "ropsten" ]} : gset string) ->
        get_web3_connection_provider network_url = Raised AssertionError).
Proof.
  split; [split; [apply supported_cases; by left | reflexivity] |].
  split; [| split; [| split]].
  - intros network_url Hhttp. unfold get_web3_connection_provider.
    destruct (String.eqb_spec network_url "ganache") as [-> | _];
      [discriminate Hhttp |].
    by rewrite Hhttp.
  - intros network_url Hws. unfold get_web3_connection_provider.
    destruct (startswith_ws_inv _ Hws) as [rest ->].
    replace (String.eqb (String "w" (String "s" rest)) "ganache") with false
      by reflexivity.
    replace (startswith (String "w" (String "s" rest)) "http") with false
      by reflexivity.
    by rewrite Hws.
  - intros network_url Hin.
    repeat (apply elem_of_union in Hin as [Hin | Hin]);
      apply elem_of_singleton in Hin as ->; reflexivity.
  - intros network_url Hg Hhttp Hws Hnot. apply assertion_iff.
    repeat split; try assumption.
    intros [? | ?]%supported_cases; contradiction.
Qed.

(** *** The round trip through base units *)

Example half_is_5_over_10 : from_base (PyInt 5) 1 = Ok half.
Proof. reflexivity. Qed.

Example round_trip_large_int : round_trip (PyInt (2 ^ 53 + 1)) 0 = Ok false.
Proof. reflexivity. Qed.

Lemma to_base_int (z : Z) (dec : N) :
  to_base (PyInt z) dec = Ok (z * pow10 dec).
Proof. unfold to_base. cbn. by rewrite Z.mul_1_r. Qed.

Lemma round_trip_int (z : Z) (dec : N) :
  Z.abs z < 2 ^ 53 -> round_trip (PyInt z) dec = Ok true.
Proof.
  intros Hz. unfold round_trip. rewrite to_base_int. cbn [mbind result_bind rbind].
  unfold from_base, py_truediv.
  pose proof (pow10_pos dec) as Hk.
  destruct (Z.eq_dec z 0) as [-> | Hne].
  - rewrite Z.mul_0_l, int_true_divide_zero by exact Hk. reflexivity.
  - destruct (int_true_divide_exact z (pow10 dec) Hne Hz Hk) as (m & Hm & ->).
    cbn [mbind result_bind rbind py_float py_eqb].
    by rewrite float_eqb_int_exact.
Qed.

(** C4, as amended.  For every amount that is a Python int (an object of
    type [int], not a float, whatever the float's value) of magnitude
    below 2{^53} and every non-negative number of decimals,
    [from_base(to_base(amt, dec), dec) == amt], and in particular
    [from_base_18(to_base_18(amt)) == amt]: both comparisons evaluate to
    [True] and nothing is raised.  Nothing is stated for float amounts. *)
Theorem round_trip_integer_amount (amt : Z) (dec : N) :
  Z.abs amt < 2 ^ 53 ->
  round_trip (PyInt amt) dec = Ok true /\ round_trip_18 (PyInt amt) = Ok true.
Proof.
  intros H. split; [by apply round_trip_int |].
  apply (round_trip_int amt 18 H).
Qed.

(** *** The base-18 helpers *)

(** C9.  [to_base_18] and [from_base_18] are [to_base] and [from_base] at
    18 decimals: on every argument the two calls give the same value or
    raise the same exception.  Where both return, Python's [==] holds
    between the two results: always for the ints of [to_base], and for
    the float of [from_base] on every int [num_base], which is never
    NaN. *)
Theorem base_18_specialization :
  (forall amt, to_base_18 amt = to_base amt 18)
  /\ (forall num_base, from_base_18 num_base = from_base num_base 18)
  /\ (forall amt x y,
        to_base_18 amt = Ok x -> to_base amt 18 = Ok y ->
        py_eqb (PyInt x) (PyInt y) = true)
  /\ (forall (num_base : Z) x y,
        from_base_18 (PyInt num_base) = Ok x ->
        from_base (PyInt num_base) 18 = Ok y ->
        py_eqb (PyFloat x) (PyFloat y) = true).
Proof.
  split; [reflexivity |]. split; [reflexivity |]. split.
  - intros amt x y Hx Hy. unfold to_base_18 in Hx. rewrite Hx in Hy.
    injection Hy as <-. apply Z.eqb_refl.
  - intros num_base x y Hx Hy. unfold from_base_18 in Hx. rewrite Hx in Hy.
    injection Hy as <-. cbn [py_eqb]. apply SFeqb_refl.
    unfold from_base, py_truediv in Hx.
    destruct (int_true_divide num_base (pow10 18)) as [q |] eqn:E;
      [| discriminate Hx].
    cbn in Hx. injection Hx as <-.
    by apply int_true_divide_not_nan in E.
Qed.

(** *** The address file *)

(** C8, as amended.  [get_contracts_addresses] returns [None] when the
    address file is unset (absent or empty) or does not exist.  When the
    file exists it returns the file's entry for the network, [None] when
    there is none, provided the file can be opened and [json.load] reads
    it as a JSON object; otherwise it raises: the error of [open] on a
    directory or on a file it may not open, the error of [json.load], or
    an attribute error when the document is not an object.  Whenever it
    returns [None], the three address getters fail with an attribute
    error instead of returning [None], and some configuration does take
    them there. *)
Theorem contracts_addresses_none
    (fs : gmap string fs_entry) (json_load : string -> result value)
    (get_network_name : string) (get_config : Config)
    (DTFactory_CONTRACT_NAME SFactory_CONTRACT_NAME : string) :
  (forall network config,
      address_file config = None
      \/ address_file config = Some ""
      \/ (exists _file, address_file config = Some _file /\ fs !! _file = None) ->
      get_contracts_addresses fs json_load network config = Ok VNone)
  /\ (forall network config _file text d,
      address_file config = Some _file ->
      _file <> "" ->
      fs !! _file = Some (RegularFile text) ->
      json_load text = Ok (VDict d) ->
      get_contracts_addresses fs json_load network config
      = Ok (default VNone (d !! network)))
  /\ (forall network config _file text,
      address_file config = Some _file ->
      _file <> "" ->
      fs !! _file = Some (RegularFile text) ->
      (forall e, json_load text = Raised e ->
                 get_contracts_addresses fs json_load network config = Raised e)
      /\ (forall o, json_load text = Ok o -> (forall d, o <> VDict d) ->
                    get_contracts_addresses fs json_load network config
                    = Raised AttributeError))
  /\ (forall network config _file,
      address_file config = Some _file ->
      _file <> "" ->
      (fs !! _file = Some Directory ->
       get_contracts_addresses fs json_load network config
       = Raised IsADirectoryError)
      /\ (fs !! _file = Some Unreadable ->
          get_contracts_addresses fs json_load network config
          = Raised PermissionError))
  /\ (forall network,
      get_contracts_addresses fs json_load (default get_network_name network)
        get_config = Ok VNone ->
      get_dtfactory_address fs json_load get_network_name get_config
        DTFactory_CONTRACT_NAME network = Raised AttributeError
      /\ get_sfactory_address fs json_load get_network_name get_config
           SFactory_CONTRACT_NAME network = Raised AttributeError
      /\ get_ocean_token_address fs json_load get_network_name get_config
           network = Raised AttributeError)
  /\ (exists config,
      forall network,
        get_dtfactory_address fs json_load get_network_name config
          DTFactory_CONTRACT_NAME network = Raised AttributeError
        /\ get_sfactory_address fs json_load get_network_name config
             SFactory_CONTRACT_NAME network = Raised AttributeError
        /\ get_ocean_token_address fs json_load get_network_name config
             network = Raised AttributeError).
Proof.
  assert (Hread : forall network config _file entry,
            address_file config = Some _file -> _file <> "" ->
            fs !! _file = Some entry ->
            get_contracts_addresses fs json_load network config
            = (text ← py_open entry; addresses ← json_load text;
               dict_get addresses network)).
  { intros network config _file entry H Hne Hfs.
    unfold get_contracts_addresses. rewrite H.
    destruct (String.eqb_spec _file ""); [contradiction |]. by rewrite Hfs. }
  split; [| split; [| split; [| split; [| split]]]].
  - intros network config [H | [H | (_file & H & Hfs)]];
      unfold get_contracts_addresses; rewrite H; [done | done |].
    destruct (String.eqb _file ""); [done |]. by rewrite Hfs.
  - intros network config _file text d H Hne Hfs Hjson.
    rewrite (Hread _ _ _ _ H Hne Hfs). cbn. by rewrite Hjson.
  - intros network config _file text H Hne Hfs.
    rewrite (Hread _ _ _ _ H Hne Hfs). cbn. split.
    + intros e Hjson. by rewrite Hjson.
    + intros o Hjson Ho. rewrite Hjson. cbn.
      destruct o; try reflexivity. by destruct (Ho d).
  - intros network config _file H Hne. split; intros Hfs;
      by rewrite (Hread _ _ _ _ H Hne Hfs).
  - intros network H. repeat split.
    + unfold get_dtfactory_address. cbn. by rewrite H.
    + unfold get_sfactory_address. cbn. by rewrite H.
    + unfold get_ocean_token_address. cbn. by rewrite H.
  - exists {| address_file := None |}. intros network. by repeat split.
Qed.

(** *** Concrete inputs *)

(** C4 fails on float amounts and on large ints.  A float that is not a
    whole number of base units is truncated by [to_base]: at 0 decimals
    0.5 comes back as 0.0, and at 18 decimals 2{^-70} comes back as 0.0.
    A float whose value is a whole number fails as well, because the
    product with [10**dec] is rounded: 2363.0, the float of the int
    2363, has the base value 2363000000000000262144 at 18 decimals and
    comes back as another float.  The int 2{^53}+1 comes back, at 0
    decimals, as the float 2{^53}. *)
Lemma round_trip_fails :
  (round_trip (PyFloat half) 0 = Ok false
   /\ round_trip_18 (PyFloat tiny) = Ok false)
  /\ (float_of_int 2363 = Ok whole
      /\ to_base_18 (PyFloat whole) = Ok 2363000000000000262144
      /\ round_trip_18 (PyFloat whole) = Ok false
      /\ round_trip_18 (PyInt 2363) = Ok true)
  /\ round_trip (PyInt (2 ^ 53 + 1)) 0 = Ok false.
Proof. repeat split; by vm_compute. Qed.

Lemma round_trip_integer_amount_witness :
  Z.abs 7 < 2 ^ 53
  /\ round_trip (PyInt 7) 18 = Ok true /\ round_trip_18 (PyInt 7) = Ok true.
Proof.
  assert (H : Z.abs 7 < 2 ^ 53) by reflexivity.
  split; [exact H |].
  exact (round_trip_integer_amount 7 18 H).
Defined.

Lemma base_18_specialization_witness :
  (to_base_18 (PyInt 3) = Ok 3000000000000000000
   /\ to_base (PyInt 3) 18 = Ok 3000000000000000000)
  /\ py_eqb (PyInt 3000000000000000000) (PyInt 3000000000000000000) = true.
Proof.
  assert (H1 : to_base_18 (PyInt 3) = Ok 3000000000000000000) by reflexivity.
  assert (H2 : to_base (PyInt 3) 18 = Ok 3000000000000000000) by reflexivity.
  split; [exact (conj H1 H2) |].
  exact (proj1 (proj2 (proj2 base_18_specialization)) (PyInt 3) _ _ H1 H2).
Defined.

Lemma get_web3_connection_provider_dispatch_witness :
  (startswith "https://rpc.example" "http" = true
   /\ get_web3_connection_provider "https://rpc.example"
      = Ok (CustomHTTPProvider "https://rpc.example"))
  /\ (startswith "ws://127.0.0.1:8546" "ws" = true
      /\ get_web3_connection_provider "ws://127.0.0.1:8546"
         = Ok (WebsocketProvider "ws://127.0.0.1:8546"))
  /\ ("rinkeby" ∈ ({[ "rinkeby"; "kovan"; "mainnet"; "ropsten" ]} : gset string)
      /\ get_web3_connection_provider "rinkeby"
         = Ok (WebsocketProvider
                 "wss://rinkeby.infura.io/ws/v3/357f2fe737db4304bd2f7285c5602d0d"))
  /\ (("polygon" <> "ganache"
       /\ startswith "polygon" "http" = false
       /\ startswith "polygon" "ws" = false
       /\ "polygon" ∉ ({[ "rinkeby"; "kovan"; "mainnet"; "ropsten" ]} : gset string))
      /\ get_web3_connection_provider "polygon" = Raised AssertionError).
Proof.
  pose proof get_web3_connection_provider_dispatch
    as (_ & Hhttp & Hws & Hname & Hrest).
  assert (H1 : startswith "https://rpc.example" "http" = true) by reflexivity.
  assert (H2 : startswith "ws://127.0.0.1:8546" "ws" = true) by reflexivity.
  assert (H3 : "rinkeby" ∈ ({[ "rinkeby"; "kovan"; "mainnet"; "ropsten" ]} : gset string))
    by (apply (proj1 (bool_decide_eq_true _)); reflexivity).
  assert (H4 : "polygon" <> "ganache") by discriminate.
  assert (H5 : startswith "polygon" "http" = false) by reflexivity.
  assert (H6 : startswith "polygon" "ws" = false) by reflexivity.
  assert (H7 : "polygon" ∉ ({[ "rinkeby"; "kovan"; "mainnet"; "ropsten" ]} : gset string))
    by (apply (proj1 (bool_decide_eq_false _)); reflexivity).
  split; [exact (conj H1 (Hhttp _ H1)) |].
  split; [exact (conj H2 (Hws _ H2)) |].
  split; [exact (conj H3 (Hname _ H3)) |].
  exact (conj (conj H4 (conj H5 (conj H6 H7))) (Hrest _ H4 H5 H6 H7)).
Defined.

(** C8 fails on an address file that exists but is not a JSON object
    that can be read: for a file that holds a JSON list the lookup of
    the network raises an attribute error, for a text that is not JSON
    the error of the parser comes out, and for a directory [open]
    raises; in none of these is an entry or [None] returned. *)
Lemma contracts_addresses_raises :
  (example_fs !! list_file = Some (RegularFile list_text)
   /\ example_json_load list_text = Ok (VList [VStr "ganache"; VStr "kovan"])
   /\ get_contracts_addresses example_fs example_json_load "ganache"
        {| address_file := Some list_file |} = Raised AttributeError)
  /\ (example_fs !! broken_file = Some (RegularFile broken_text)
      /\ get_contracts_addresses example_fs example_json_load "ganache"
           {| address_file := Some broken_file |} = Raised JSONDecodeError)
  /\ (example_fs !! "/ocean" = Some Directory
      /\ get_contracts_addresses example_fs example_json_load "ganache"
           {| address_file := Some "/ocean" |} = Raised IsADirectoryError).
Proof. repeat split; by vm_compute. Qed.

Lemma contracts_addresses_none_witness :
  (get_contracts_addresses example_fs example_json_load "ganache" example_config
   = Ok (VDict {[ "DTFactory" := VStr "0xabc" ]}))
  /\ (get_contracts_addresses example_fs example_json_load "kovan" example_config
      = Ok VNone
      /\ get_dtfactory_address example_fs example_json_load "ganache"
           example_config "DTFactory" (Some "kovan") = Raised AttributeError
      /\ get_sfactory_address example_fs example_json_load "ganache"
           example_config "SFactory" (Some "kovan") = Raised AttributeError
      /\ get_ocean_token_address example_fs example_json_load "ganache"
           example_config (Some "kovan") = Raised AttributeError)
  /\ (get_contracts_addresses example_fs example_json_load "ganache"
        {| address_file := Some "/missing.json" |} = Ok VNone)
  /\ (get_contracts_addresses example_fs example_json_load "ganache"
        {| address_file := Some list_file |} = Raised AttributeError
      /\ get_contracts_addresses example_fs example_json_load "ganache"
           {| address_file := Some broken_file |} = Raised JSONDecodeError)
  /\ (get_contracts_addresses example_fs example_json_load "ganache"
        {| address_file := Some "/ocean" |} = Raised IsADirectoryError).
Proof.
  pose proof (contracts_addresses_none example_fs example_json_load "ganache"
                example_config "DTFactory" "SFactory")
    as (Hnone & Hentry & Hbad & Hopen & Hget & _).
  assert (Hkovan : get_contracts_addresses example_fs example_json_load
                     (default "ganache" (Some "kovan")) example_config = Ok VNone)
    by reflexivity.
  split; [| split; [| split; [| split]]].
  - rewrite (Hentry "ganache" example_config example_file example_text
               {[ "ganache" := VDict {[ "DTFactory" := VStr "0xabc" ]} ]});
      [by vm_compute | reflexivity | discriminate | by vm_compute | reflexivity].
  - split; [exact Hkovan |]. exact (Hget (Some "kovan") Hkovan).
  - apply Hnone. right. right. exists "/missing.json".
    split; [reflexivity | by vm_compute].
  - split.
    + apply (proj2 (Hbad "ganache" {| address_file := Some list_file |}
                      list_file list_text eq_refl ltac:(discriminate)
                      ltac:(by vm_compute))
               (VList [VStr "ganache"; VStr "kovan"]));
        [reflexivity | discriminate].
    + apply (proj1 (Hbad "ganache" {| address_file := Some broken_file |}
                      broken_file broken_text eq_refl ltac:(discriminate)
                      ltac:(by vm_compute)));
        reflexivity.
  - apply (proj1 (Hopen "ganache" {| address_file := Some "/ocean" |} "/ocean"
                    eq_refl ltac:(discriminate))).
    by vm_compute.
Defined.

(** ** Further properties of util.py *)

(** *** The provider and its endpoint *)

Lemma dispatch_cases (network_url : string) (p : provider) :
  get_web3_connection_provider network_url = Ok p ->
  (network_url = "ganache" /\ p = CustomHTTPProvider GANACHE_URL)
  \/ (network_url <> "ganache" /\ startswith network_url "http" = true
      /\ p = CustomHTTPProvider network_url)
  \/ (network_url <> "ganache" /\ startswith network_url "http" = false
      /\ startswith network_url "ws" = true /\ p = WebsocketProvider network_url)
  \/ (network_url <> "ganache" /\ startswith network_url "http" = false
      /\ startswith network_url "ws" = false
      /\ network_url ∈ SUPPORTED_NETWORK_NAMES
      /\ p = WebsocketProvider (get_infura_url WEB3_INFURA_PROJECT_ID network_url)).
Proof.
  unfold get_web3_connection_provider.
  destruct (String.eqb_spec network_url "ganache") as [-> | Hne].
  - intros [= <-]. by left.
  - destruct (startswith network_url "http") eqn:Hhttp.
    + intros [= <-]. right. by left.
    + destruct (startswith network_url "ws") eqn:Hws; cbn.
      * intros [= <-]. right. right. by left.
      * case_bool_decide; cbn; [| discriminate].
        intros [= <-]. right. right. by right.
Qed.

(** X1.  Whenever [get_web3_connection_provider] returns, the kind of
    provider agrees with the scheme of its endpoint: an HTTP provider has
    an endpoint that starts with 'http', a websocket provider has one
    that starts with 'ws' (and not with 'http'). *)
Theorem provider_matches_scheme (network_url : string) (p : provider) :
  get_web3_connection_provider network_url = Ok p ->
  match p with
  | CustomHTTPProvider endpoint => startswith endpoint "http" = true
  | WebsocketProvider endpoint =>
      startswith endpoint "ws" = true /\ startswith endpoint "http" = false
  end.
Proof.
  intros H.
  destruct (dispatch_cases _ _ H)
    as [[-> ->] | [(_ & Hh & ->) | [(_ & Hh & Hw & ->) | (_ & _ & _ & _ & ->)]]];
    try done.
Qed.

(** X2.  Selecting a provider is idempotent: the endpoint of a provider
    that [get_web3_connection_provider] returned, given back to it,
    selects the same provider again.  In particular a network name and
    the infura address made from it select the same provider. *)
Theorem provider_endpoint_fixed_point (network_url : string) (p : provider) :
  get_web3_connection_provider network_url = Ok p ->
  get_web3_connection_provider (endpoint_of p) = Ok p.
Proof.
  intros H.
  destruct (dispatch_cases _ _ H)
    as [[-> ->] | [(Hne & Hh & ->) | [(Hne & Hh & Hw & ->) | (_ & _ & _ & _ & ->)]]];
    cbn [endpoint_of]; try reflexivity.
  - unfold get_web3_connection_provider.
    destruct (String.eqb_spec network_url "ganache"); [contradiction |].
    by rewrite Hh.
  - unfold get_web3_connection_provider.
    destruct (String.eqb_spec network_url "ganache"); [contradiction |].
    by rewrite Hh, Hw.
Qed.

Lemma append_cons (a : ascii) (s t : string) :
  (String a s ++ t)%string = String a (s ++ t).
Proof. reflexivity. Qed.

Lemma length_append (s t : string) :
  String.length (s ++ t) = (String.length s + String.length t)%nat.
Proof.
  induction s as [| a s IH]; [done |].
  rewrite append_cons. cbn [String.length]. by rewrite IH.
Qed.

Lemma append_inj_r (s s' t : string) : (s ++ t = s' ++ t)%string -> s = s'.
Proof.
  revert s'. induction s as [| a s IH]; intros [| a' s'] H.
  - done.
  - apply (f_equal String.length) in H. rewrite !length_append in H.
    cbn [String.length] in H. lia.
  - apply (f_equal String.length) in H. rewrite !length_append in H.
    cbn [String.length] in H. lia.
  - rewrite !append_cons in H. injection H as -> H. f_equal. auto.
Qed.

(** X3.  For one project id, [get_infura_url] gives different addresses
    to different networks. *)
Theorem get_infura_url_injective (infura_id network network' : string) :
  get_infura_url infura_id network = get_infura_url infura_id network' ->
  network = network'.
Proof.
  unfold get_infura_url. intros H.
  apply (inj (String.app "wss://")) in H. by apply append_inj_r in H.
Qed.

(** *** The converters on ints and on floats *)

(** X4.  On an int amount [to_base] is exact and never raises: the result
    is [amt * 10**dec].  Hence different amounts have different base
    values, and converting at [dec + more] decimals is converting at
    [dec] decimals and then at [more]. *)
Theorem to_base_int_exact (dec : N) :
  (forall amt : Z, to_base (PyInt amt) dec = Ok (amt * 10 ^ Z.of_N dec))
  /\ (forall a b : Z, to_base (PyInt a) dec = to_base (PyInt b) dec -> a = b)
  /\ (forall (amt : Z) (more : N),
        to_base (PyInt amt) (dec + more)
        = (num_base ← to_base (PyInt amt) dec; to_base (PyInt num_base) more)).
Proof.
  pose proof (pow10_pos dec) as Hk. unfold pow10 in Hk.
  split; [| split].
  - intros amt. apply to_base_int.
  - intros a b. rewrite !to_base_int. unfold pow10. intros [= H].
    apply Z.mul_cancel_r in H; lia.
  - intros amt more. rewrite !to_base_int. cbn [mbind result_bind rbind].
    rewrite to_base_int. unfold pow10.
    rewrite N2Z.inj_add, Z.pow_add_r by lia. f_equal. lia.
Qed.

(** X5.  With a float argument the converters work up to 308 decimals
    only.  From 309 decimals on, [10**dec] is out of the range of a
    float, and [to_base] and [from_base] raise [OverflowError] on every
    float, whatever its value; up to 308 decimals they return on the
    float 0.0. *)
Theorem float_amount_decimals_limit (dec : N) :
  ((309 <= dec)%N ->
   forall f : float,
     to_base (PyFloat f) dec = Raised OverflowError
     /\ from_base (PyFloat f) dec = Raised OverflowError)
  /\ ((dec <= 308)%N ->
      to_base (PyFloat (S754_zero false)) dec = Ok 0
      /\ from_base (PyFloat (S754_zero false)) dec = Ok (S754_zero false)).
Proof.
  split.
  - intros Hdec f.
    pose proof (float_of_int_overflow _ (pow10_overflows dec Hdec)) as Hov.
    unfold to_base, from_base, py_truediv, py_mul.
    cbn [py_float mbind result_bind rbind]. rewrite float_of_int_one.
    cbn [mbind result_bind rbind py_float]. rewrite Hov. done.
  - intros Hdec.
    destruct (pow10_converts dec Hdec) as (m & e & Hk).
    unfold to_base, from_base, py_truediv, py_mul.
    cbn [py_float mbind result_bind rbind]. rewrite float_of_int_one.
    cbn [mbind result_bind rbind py_float]. rewrite Hk. done.
Qed.

(** X6.  [to_base] never returns on a float that is not a number: on NaN
    it raises [ValueError] (up to 308 decimals; [OverflowError] beyond),
    and on an infinity it raises [OverflowError]. *)
Theorem to_base_not_a_number (dec : N) :
  to_base (PyFloat S754_nan) dec
  = Raised (if (dec <=? 308)%N then ValueError else OverflowError)
  /\ (forall s, to_base (PyFloat (S754_infinity s)) dec = Raised OverflowError).
Proof.
  unfold to_base, py_mul.
  cbn [py_float mbind result_bind rbind]. rewrite float_of_int_one.
  cbn [mbind result_bind rbind py_float SFmul].
  destruct (N.leb_spec dec 308) as [Hdec | Hdec].
  - destruct (pow10_converts dec Hdec) as (m & e & ->).
    split; [reflexivity | intros s; by destruct s].
  - rewrite float_of_int_overflow by (apply pow10_overflows; lia).
    split; [reflexivity | intros s; by destruct s].
Qed.

(** X7.  The only exceptions of the converters: [to_base] raises nothing
    but [OverflowError] and [ValueError]; [from_base] raises nothing but
    [OverflowError], in particular never [ZeroDivisionError]; and the
    float that [from_base] returns on an int is never NaN. *)
Theorem converter_exceptions :
  (forall amt dec e, to_base amt dec = Raised e -> e = OverflowError \/ e = ValueError)
  /\ (forall num_base dec e, from_base num_base dec = Raised e -> e = OverflowError)
  /\ (forall (num_base : Z) dec f,
        from_base (PyInt num_base) dec = Ok f -> f <> S754_nan).
Proof.
  split; [| split].
  - intros amt dec e. unfold to_base.
    assert (Hmul : forall x y e', py_mul x y = Raised e' -> e' = OverflowError).
    { intros x y e'. unfold py_mul.
      destruct x as [a | fx], y as [b | fy]; cbn [py_float];
        try discriminate;
        repeat match goal with
        | |- context [float_of_int ?z] =>
            let E := fresh "E" in
            destruct (float_of_int z) eqn:E;
            [| apply float_of_int_raises in E; subst]
        end; cbn [mbind result_bind rbind]; congruence. }
    destruct (py_mul amt (PyInt 1)) as [x |] eqn:E1; cbn [mbind result_bind rbind].
    2:{ intros [= <-]. left. eapply Hmul, E1. }
    destruct (py_mul x (PyInt (pow10 dec))) as [y |] eqn:E2;
      cbn [mbind result_bind rbind].
    2:{ intros [= <-]. left. eapply Hmul, E2. }
    destruct y as [z | [s | s | | s m e']]; cbn [py_int]; intros [= <-]; auto.
  - intros num_base dec e. unfold from_base, py_truediv.
    pose proof (pow10_pos dec) as Hk.
    destruct num_base as [a | fx]; cbn [py_float mbind result_bind rbind].
    + destruct (int_true_divide a (pow10 dec)) eqn:E; cbn [rbind]; [discriminate |].
      intros [= <-]. eapply int_true_divide_raises; [| exact E]. lia.
    + destruct (float_of_int_pos _ Hk) as [-> | (m & e' & ->)];
        cbn [mbind result_bind rbind float_is_zero py_float]; congruence.
  - intros num_base dec f. unfold from_base, py_truediv.
    destruct (int_true_divide num_base (pow10 dec)) as [q |] eqn:E;
      cbn [mbind result_bind rbind py_float]; [| discriminate].
    intros [= <-]. by apply int_true_divide_not_nan in E.
Qed.

(** X8.  [from_base] is odd on ints: for a non-zero [num_base],
    [from_base(-num_base, dec)] is [-from_base(num_base, dec)], and it
    raises when the other raises. *)
Theorem from_base_opp (num_base : Z) (dec : N) :
  num_base <> 0 ->
  from_base (PyInt (- num_base)) dec
  = (f ← from_base (PyInt num_base) dec; Ok (SFopp f)).
Proof.
  intros Hz. unfold from_base, py_truediv, int_true_divide.
  pose proof (pow10_pos dec) as Hk.
  destruct (Z.eqb_spec (pow10 dec) 0); [lia |].
  rewrite Z.abs_opp.
  destruct (SFdiv_core_binary _ _ _ _ _ _) as [[q e] l].
  replace (- num_base <? 0) with (negb (num_base <? 0))
    by (destruct (Z.ltb_spec num_base 0), (Z.ltb_spec (- num_base) 0);
        try reflexivity; lia).
  rewrite <- negb_xorb_l, round_aux_opp.
  destruct (binary_round_aux _ _ _ _ _ _); reflexivity.
Qed.

(** X13.  [to_base] keeps the sign of a float amount: when it returns, a
    positive amount (or +0.0) gives a non-negative number of base units
    and a negative amount (or -0.0) a non-positive one. *)
Theorem to_base_keeps_sign (s : bool) (amt : float) (dec : N) (num_base : Z) :
  has_sign s amt ->
  to_base (PyFloat amt) dec = Ok num_base ->
  if s then num_base <= 0 else 0 <= num_base.
Proof.
  intros Hs. unfold to_base, py_mul.
  cbn [py_float mbind result_bind rbind]. rewrite float_of_int_one.
  cbn [mbind result_bind rbind py_float].
  destruct (float_of_int_pos _ (pow10_pos dec)) as [-> | (m & e & ->)];
    cbn [mbind result_bind rbind]; [discriminate |].
  apply py_int_has_sign. by do 2 apply SFmul_has_sign.
Qed.

(** *** The address getters *)

Lemma dict_get_ok (o : value) (key : string) (v : value) :
  dict_get o key = Ok v <-> exists d, o = VDict d /\ v = default VNone (d !! key).
Proof. destruct o; cbn; naive_solver. Qed.

Lemma dict_get_raised (o : value) (key : string) (e : exn) :
  dict_get o key = Raised e <-> (forall d, o <> VDict d) /\ e = AttributeError.
Proof. destruct o; cbn; naive_solver. Qed.

Lemma bind_ok {A B : Type} (r : result A) (k : A -> result B) (b : B) :
  (a ← r; k a) = Ok b <-> exists a, r = Ok a /\ k a = Ok b.
Proof. destruct r; cbn; naive_solver. Qed.

Lemma bind_raised {A B : Type} (r : result A) (k : A -> result B) (e : exn) :
  (a ← r; k a) = Raised e <-> r = Raised e \/ exists a, r = Ok a /\ k a = Raised e.
Proof. destruct r; cbn; naive_solver. Qed.

Section Getters.

Context (fs : gmap string fs_entry) (json_load : string -> result value).
Context (get_network_name : string) (get_config : Config).
Context (DTFactory_CONTRACT_NAME SFactory_CONTRACT_NAME : string).

Abbreviation get_contracts_addresses := (Util.get_contracts_addresses fs json_load).
Abbreviation get_dtfactory_address :=
  (Util.get_dtfactory_address fs json_load get_network_name get_config
     DTFactory_CONTRACT_NAME).
Abbreviation get_sfactory_address :=
  (Util.get_sfactory_address fs json_load get_network_name get_config
     SFactory_CONTRACT_NAME).
Abbreviation get_ocean_token_address :=
  (Util.get_ocean_token_address fs json_load get_network_name get_config).
Abbreviation file_text := (Util.file_text fs).

Lemma contracts_addresses_cases (network : string) (config : Config) :
  ((get_contracts_addresses network config = Ok VNone
    \/ exists e, get_contracts_addresses network config = Raised e)
   /\ forall text, ~ file_text config text)
  \/ (exists text,
        file_text config text
        /\ get_contracts_addresses network config
           = (addresses ← json_load text; dict_get addresses network)).
Proof.
  unfold Util.get_contracts_addresses, Util.file_text.
  destruct (address_file config) as [_file |] eqn:Hfile.
  - destruct (String.eqb_spec _file "") as [-> | Hne].
    + left. split; [by left |]. intros text (f & [= <-] & Hf & _). done.
    + destruct (fs !! _file) as [[text | |] |] eqn:Hfs.
      * right. exists text. split; [| done]. exists _file. done.
      * left. split; [right; by eexists |].
        intros text (f & [= <-] & _ & Hf). congruence.
      * left. split; [right; by eexists |].
        intros text (f & [= <-] & _ & Hf). congruence.
      * left. split; [by left |]. intros text (f & [= <-] & _ & Hf). congruence.
  - left. split; [by left |]. intros text (f & [=] & _).
Qed.

Lemma contracts_addresses_entry (network : string) (config : Config)
    (entry : gmap string value) :
  get_contracts_addresses network config = Ok (VDict entry) <->
  exists text d,
    file_text config text /\ json_load text = Ok (VDict d)
    /\ d !! network = Some (VDict entry).
Proof.
  destruct (contracts_addresses_cases network config)
    as [[Hnone Hno] | (text & Hfile & Heq)].
  - split.
    + destruct Hnone as [Hnone | [e Hnone]]; rewrite Hnone; discriminate.
    + intros (text & d & Hfile & _). by destruct (Hno text).
  - rewrite Heq, bind_ok. split.
    + intros (a & Hload & (d & -> & Hentry)%dict_get_ok).
      exists text, d. repeat split; [done.. |].
      destruct (d !! network); cbn in Hentry; congruence.
    + intros (text' & d & Hfile' & Hload & Hentry).
      assert (text' = text) as ->.
      { destruct Hfile as (f & H1 & _ & H2), Hfile' as (f' & H1' & _ & H2').
        congruence. }
      exists (VDict d). split; [done |]. apply dict_get_ok. exists d.
      by rewrite Hentry.
Qed.

(** X9.  An address getter returns exactly when the address file is set,
    exists, can be opened and holds a JSON object whose entry for the
    network is itself an object; it then returns that object's entry for the contract name,
    and [None] when the object has no such entry.  So a contract that is
    missing from a listed network gives [None], while every other
    shortcoming raises. *)
Theorem address_getters_return (network : option string) (v : value) :
  let entry_of key :=
    exists text d entry,
      file_text get_config text /\ json_load text = Ok (VDict d)
      /\ d !! default get_network_name network = Some (VDict entry)
      /\ v = default VNone (entry !! key) in
  (get_dtfactory_address network = Ok v <-> entry_of DTFactory_CONTRACT_NAME)
  /\ (get_sfactory_address network = Ok v <-> entry_of SFactory_CONTRACT_NAME)
  /\ (get_ocean_token_address network = Ok v <-> entry_of "Ocean").
Proof.
  assert (H : forall key,
    (addresses ← get_contracts_addresses (default get_network_name network) get_config;
     dict_get addresses key) = Ok v <->
    exists text d entry,
      file_text get_config text /\ json_load text = Ok (VDict d)
      /\ d !! default get_network_name network = Some (VDict entry)
      /\ v = default VNone (entry !! key)).
  { intros key. rewrite bind_ok. split.
    - intros (a & Ha & (entry & -> & ->)%dict_get_ok).
      apply contracts_addresses_entry in Ha as (text & d & ? & ? & ?).
      by exists text, d, entry.
    - intros (text & d & entry & Hfile & Hload & Hentry & ->).
      exists (VDict entry). split; [| by apply dict_get_ok; eauto].
      apply contracts_addresses_entry. eauto. }
  intros entry_of. repeat split; apply H.
Qed.

(** X10.  The three address getters fail together and with the same
    exception: each raises [e] exactly when [get_contracts_addresses]
    raises [e] (an error of [open], an error of [json.load], or of the
    lookup in a document that is not an object), or when [e] is an attribute error and
    [get_contracts_addresses] returned something that is not a dict,
    [None] included. *)
Theorem address_getters_fail_together (network : option string) (e : exn) :
  let failure :=
    get_contracts_addresses (default get_network_name network) get_config = Raised e
    \/ (e = AttributeError
        /\ exists o,
             get_contracts_addresses (default get_network_name network) get_config
             = Ok o
             /\ forall entry, o <> VDict entry) in
  (get_dtfactory_address network = Raised e <-> failure)
  /\ (get_sfactory_address network = Raised e <-> failure)
  /\ (get_ocean_token_address network = Raised e <-> failure).
Proof.
  assert (H : forall key,
    (addresses ← get_contracts_addresses (default get_network_name network) get_config;
     dict_get addresses key) = Raised e <->
    get_contracts_addresses (default get_network_name network) get_config = Raised e
    \/ (e = AttributeError
        /\ exists o,
             get_contracts_addresses (default get_network_name network) get_config
             = Ok o
             /\ forall entry, o <> VDict entry)).
  { intros key. rewrite bind_raised. split.
    - intros [H | (a & Ha & [Hd ->]%dict_get_raised)]; [by left |].
      right. split; [done |]. by exists a.
    - intros [H | (-> & o & Ho & Hd)]; [by left |].
      right. exists o. split; [done |]. by apply dict_get_raised. }
  intros failure. repeat split; apply H.
Qed.

End Getters.

(** *** Concrete inputs for the further properties *)

Lemma provider_matches_scheme_witness :
  get_web3_connection_provider "kovan"
  = Ok (WebsocketProvider
          "wss://kovan.infura.io/ws/v3/357f2fe737db4304bd2f7285c5602d0d")
  /\ startswith "wss://kovan.infura.io/ws/v3/357f2fe737db4304bd2f7285c5602d0d" "ws"
     = true
  /\ startswith "wss://kovan.infura.io/ws/v3/357f2fe737db4304bd2f7285c5602d0d" "http"
     = false.
Proof.
  assert (H : get_web3_connection_provider "kovan"
              = Ok (WebsocketProvider
                      "wss://kovan.infura.io/ws/v3/357f2fe737db4304bd2f7285c5602d0d"))
    by reflexivity.
  split; [exact H |].
  exact (provider_matches_scheme "kovan" _ H).
Defined.

Lemma provider_endpoint_fixed_point_witness :
  get_web3_connection_provider "ganache" = Ok (CustomHTTPProvider GANACHE_URL)
  /\ get_web3_connection_provider GANACHE_URL = Ok (CustomHTTPProvider GANACHE_URL).
Proof.
  assert (H : get_web3_connection_provider "ganache"
              = Ok (CustomHTTPProvider GANACHE_URL)) by reflexivity.
  split; [exact H |].
  exact (provider_endpoint_fixed_point "ganache" _ H).
Defined.

Lemma get_infura_url_injective_witness :
  get_infura_url WEB3_INFURA_PROJECT_ID "kovan"
  = get_infura_url WEB3_INFURA_PROJECT_ID "kovan"
  /\ "kovan" = "kovan".
Proof.
  assert (H : get_infura_url WEB3_INFURA_PROJECT_ID "kovan"
              = get_infura_url WEB3_INFURA_PROJECT_ID "kovan") by reflexivity.
  split; [exact H |].
  exact (get_infura_url_injective WEB3_INFURA_PROJECT_ID "kovan" "kovan" H).
Defined.

Lemma to_base_int_exact_witness :
  to_base (PyInt 5) 18 = to_base (PyInt 5) 18 /\ 5 = 5.
Proof.
  assert (H : to_base (PyInt 5) 18 = to_base (PyInt 5) 18) by reflexivity.
  split; [exact H |].
  exact (proj1 (proj2 (to_base_int_exact 18)) 5 5 H).
Defined.

Lemma float_amount_decimals_limit_witness :
  ((309 <= 309)%N
   /\ to_base (PyFloat half) 309 = Raised OverflowError
   /\ from_base (PyFloat half) 309 = Raised OverflowError)
  /\ ((308 <= 308)%N
      /\ to_base (PyFloat (S754_zero false)) 308 = Ok 0
      /\ from_base (PyFloat (S754_zero false)) 308 = Ok (S754_zero false)).
Proof.
  assert (H1 : (309 <= 309)%N) by reflexivity.
  assert (H2 : (308 <= 308)%N) by reflexivity.
  split.
  - split; [exact H1 |].
    exact (proj1 (float_amount_decimals_limit 309) H1 half).
  - split; [exact H2 |].
    exact (proj2 (float_amount_decimals_limit 308) H2).
Defined.

Lemma converter_exceptions_witness :
  (from_base (PyInt (10 ^ 400)) 0 = Raised OverflowError
   /\ OverflowError = OverflowError)
  /\ (to_base (PyFloat S754_nan) 0 = Raised ValueError
      /\ (ValueError = OverflowError \/ ValueError = ValueError)).
Proof.
  assert (H1 : from_base (PyInt (10 ^ 400)) 0 = Raised OverflowError)
    by (vm_compute; reflexivity).
  assert (H2 : to_base (PyFloat S754_nan) 0 = Raised ValueError) by reflexivity.
  split.
  - split; [exact H1 |].
    exact (proj1 (proj2 converter_exceptions) _ _ _ H1).
  - split; [exact H2 |].
    exact (proj1 converter_exceptions _ _ _ H2).
Defined.

Lemma from_base_opp_witness :
  -3 <> 0
  /\ from_base (PyInt (- -3)) 18
     = (f ← from_base (PyInt (-3)) 18; Ok (SFopp f)).
Proof.
  assert (H : -3 <> 0) by discriminate.
  split; [exact H |].
  exact (from_base_opp (-3) 18 H).
Defined.

Lemma to_base_keeps_sign_witness :
  (has_sign false half /\ to_base (PyFloat half) 18 = Ok 500000000000000000)
  /\ 0 <= 500000000000000000.
Proof.
  assert (H1 : has_sign false half) by reflexivity.
  assert (H2 : to_base (PyFloat half) 18 = Ok 500000000000000000) by reflexivity.
  split; [exact (conj H1 H2) |].
  exact (to_base_keeps_sign false half 18 500000000000000000 H1 H2).
Defined.

Lemma example_file_text : Util.file_text example_fs example_config example_text.
Proof.
  exists example_file. split; [reflexivity |]. split; [discriminate | by vm_compute].
Qed.

Lemma address_getters_return_witness :
  get_dtfactory_address example_fs example_json_load "ganache" example_config
    "DTFactory" None = Ok (VStr "0xabc")
  /\ get_sfactory_address example_fs example_json_load "ganache" example_config
       "SFactory" None = Ok VNone.
Proof.
  split.
  - apply (proj1 (address_getters_return example_fs example_json_load "ganache"
                    example_config "DTFactory" "SFactory" None (VStr "0xabc"))).
    exists example_text, {[ "ganache" := VDict {[ "DTFactory" := VStr "0xabc" ]} ]},
      {[ "DTFactory" := VStr "0xabc" ]}.
    split; [exact example_file_text |]. by vm_compute.
  - apply (proj1 (proj2 (address_getters_return example_fs example_json_load
                           "ganache" example_config "DTFactory" "SFactory" None
                           VNone))).
    exists example_text, {[ "ganache" := VDict {[ "DTFactory" := VStr "0xabc" ]} ]},
      {[ "DTFactory" := VStr "0xabc" ]}.
    split; [exact example_file_text |]. by vm_compute.
Defined.

Lemma address_getters_fail_together_witness :
  get_contracts_addresses example_fs example_json_load "kovan" example_config
  = Ok VNone
  /\ get_dtfactory_address example_fs example_json_load "ganache" example_config
       "DTFactory" (Some "kovan") = Raised AttributeError
  /\ get_ocean_token_address example_fs example_json_load "ganache" example_config
       (Some "kovan") = Raised AttributeError.
Proof.
  assert (H : get_contracts_addresses example_fs example_json_load "kovan"
                example_config = Ok VNone) by reflexivity.
  pose proof (address_getters_fail_together example_fs example_json_load "ganache"
                example_config "DTFactory" "SFactory" (Some "kovan") AttributeError)
    as (Hdt & _ & Hocean).
  assert (Hfail :
    get_contracts_addresses example_fs example_json_load
      (default "ganache" (Some "kovan")) example_config = Raised AttributeError
    \/ (AttributeError = AttributeError
        /\ exists o,
             get_contracts_addresses example_fs example_json_load
               (default "ganache" (Some "kovan")) example_config = Ok o
             /\ forall entry, o <> VDict entry)).
  { right. split; [reflexivity |]. exists VNone. split; [exact H | discriminate]. }
  split; [exact H |].
  split; [exact (proj2 Hdt Hfail) | exact (proj2 Hocean Hfail)].
Defined.

End UtilFacts.

(** ** The pool wrapper *)

Module BPoolFacts.
Import Remote BPool.

Ltac unfold_methods :=
  unfold event_LOG_SWAP, event_LOG_JOIN, event_LOG_EXIT, event_LOG_CALL,
    event_LOG_BPT, initialize, setup, is_public_pool, opf_fee, community_fee,
    market_fee, is_finalized, is_bound, get_num_tokens, get_current_tokens,
    get_final_tokens, collect_opf, collect_market_fee,
    update_market_fee_collector, get_denormalized_weight,
    get_total_denormalized_weight, get_normalized_weight, get_balance,
    get_swap_fee, get_controller, get_data_token_address,
    get_base_token_address, set_swap_fee, finalize, bind, rebind,
    get_spot_price, join_pool, exit_pool, swap_exact_amount_in,
    swap_exact_amount_out, join_swap_extern_amount_in,
    join_swap_pool_amount_out, exit_swap_pool_amount_in,
    exit_swap_extern_amount_out.

Section Runs.

Context (Wallet : Type) (GASLIMIT_BFACTORY_NEWBPOOL : Z).
Context {remote_error chain : Type}.

Abbreviation channel := (Remote.channel Wallet remote_error chain).
Abbreviation invocation := (BPool.invocation Wallet).
Abbreviation body_of := (BPool.body_of Wallet GASLIMIT_BFACTORY_NEWBPOOL).
Abbreviation request_of := (BPool.request_of Wallet GASLIMIT_BFACTORY_NEWBPOOL).
Abbreviation plain_request := (BPool.plain_request Wallet).
Abbreviation wallet_of := (BPool.wallet_of Wallet).
Abbreviation supplied_args := (BPool.supplied_args Wallet).
Abbreviation is_setup := (BPool.is_setup Wallet).
Abbreviation run_all := (BPool.run_all Wallet GASLIMIT_BFACTORY_NEWBPOOL).
Abbreviation plain_pass_through :=
  (BPool.plain_pass_through Wallet GASLIMIT_BFACTORY_NEWBPOOL
     (remote_error := remote_error) (chain := chain)).
Abbreviation only_remote_errors :=
  (BPool.only_remote_errors Wallet (remote_error := remote_error) (chain := chain)).
Abbreviation needs_remote :=
  (BPool.needs_remote Wallet (remote_error := remote_error) (chain := chain)).
Abbreviation self_contained :=
  (BPool.self_contained Wallet (remote_error := remote_error) (chain := chain)).

(** *** Every body is one request *)

Lemma run_body_of (ch : channel) (i : invocation) attrs c :
  run ch (body_of i) attrs c =
  Execution (answer_outcome (ch (request_of i) c).1) attrs
            (ch (request_of i) c).2
            [(request_of i, (ch (request_of i) c).1)].
Proof.
  destruct i; cbn [BPool.body_of]; unfold_methods;
    cbn [run BPool.request_of BPool.wallet_of BPool.kind_of BPool.remote_name
         BPool.supplied_args BPool.transact_of];
    unfold EVENT_LOG_SWAP, EVENT_LOG_JOIN, EVENT_LOG_EXIT, EVENT_LOG_CALL,
      EVENT_LOG_BPT;
    match goal with
    | |- context [ch ?r c] => destruct (ch r c) as [[err | v] c']
    end; reflexivity.
Qed.

Lemma lift_run {A : Type} (ch : channel) (r : result A) attrs c :
  run ch (lift r) attrs c =
  Execution (match r with Ok a => inr a | Raised e => inl (LocalFailure e) end)
            attrs c [].
Proof. destruct r; reflexivity. Qed.

Lemma run_all_attrs (ch : channel) (calls : list invocation) attrs c :
  (run_all ch calls attrs c).1 = attrs.
Proof.
  revert attrs c.
  induction calls as [| i rest IH]; intros attrs c; [reflexivity |].
  cbn [BPool.run_all]. rewrite run_body_of. cbn [attrs_after chain_after]. apply IH.
Qed.

(** *** The claims about the wrapper *)

(** C1, as amended.  Every public member of [BPool] sends exactly one
    request, [request_of], and hands back the channel's answer unchanged.
    For every member but [setup] that request carries the contract
    member's name, the caller's arguments in the order of the signature
    (for [initialize] the seven attributes of the supplied structure) and
    the caller's wallet, and nothing else, so the call is a plain
    pass-through.  [setup] sends its seven arguments and the wallet in the
    same way and adds the transaction option ["gas"], set to the constant
    [GASLIMIT_BFACTORY_NEWBPOOL]. *)
Theorem bpool_pass_through (i : invocation) :
  (forall (ch : channel) attrs c,
      trace (run ch (body_of i) attrs c)
        = [(request_of i, (ch (request_of i) c).1)]
      /\ outcome (run ch (body_of i) attrs c)
        = answer_outcome (ch (request_of i) c).1)
  /\ (is_setup i = false -> plain_pass_through i)
  /\ (is_setup i = true ->
      exists w,
        wallet_of i = Some w
        /\ request_of i
           = send_transaction "setup" (supplied_args i) w
               (Some {[ "gas" := VInt GASLIMIT_BFACTORY_NEWBPOOL ]})).
Proof.
  split; [| split].
  - intros ch attrs c. rewrite run_body_of. split; reflexivity.
  - intros Hns ch attrs c.
    assert (Hreq : request_of i = plain_request i)
      by (destruct i; first [discriminate Hns | reflexivity]).
    rewrite run_body_of, Hreq. split; reflexivity.
  - intros Hs. destruct i; try discriminate Hs.
    eexists. split; reflexivity.
Qed.

(** C5.  No call of a public member of [BPool] changes an attribute of
    the wrapper object or a module-level variable: the attributes after
    the run are the attributes before it, against every channel, and so
    are they after any sequence of calls. *)
Theorem bpool_attrs_unchanged (ch : channel) attrs c :
  (forall i : invocation, attrs_after (run ch (body_of i) attrs c) = attrs)
  /\ (forall calls : list invocation, (run_all ch calls attrs c).1 = attrs).
Proof.
  split.
  - intros i. by rewrite run_body_of.
  - intros calls. apply run_all_attrs.
Qed.

(** C6.  Two runs of the same call that receive the same answers return
    the same result, whatever the channels, the attributes and the
    external states they start from.  The result of a call does not
    depend on the wrapper calls made before it: the calls made before
    leave nothing behind locally, so they matter only through the state
    in which they leave the external system, and after any two histories
    of calls the same answers give the same result. *)
Theorem bpool_deterministic_independent (i : invocation) :
  (forall (ch1 ch2 : channel) attrs1 attrs2 c1 c2,
      responses (run ch1 (body_of i) attrs1 c1)
        = responses (run ch2 (body_of i) attrs2 c2) ->
      outcome (run ch1 (body_of i) attrs1 c1)
        = outcome (run ch2 (body_of i) attrs2 c2))
  /\ (forall (ch : channel) (before : list invocation) attrs c,
      let s := run_all ch before attrs c in
      run ch (body_of i) s.1 s.2 = run ch (body_of i) attrs s.2)
  /\ (forall (ch : channel) (before1 before2 : list invocation) attrs c,
      let s1 := run_all ch before1 attrs c in
      let s2 := run_all ch before2 attrs c in
      responses (run ch (body_of i) s1.1 s1.2)
        = responses (run ch (body_of i) s2.1 s2.2) ->
      outcome (run ch (body_of i) s1.1 s1.2)
        = outcome (run ch (body_of i) s2.1 s2.2)).
Proof.
  assert (Hdet : forall (ch1 ch2 : channel) attrs1 attrs2 c1 c2,
      responses (run ch1 (body_of i) attrs1 c1)
        = responses (run ch2 (body_of i) attrs2 c2) ->
      outcome (run ch1 (body_of i) attrs1 c1)
        = outcome (run ch2 (body_of i) attrs2 c2)).
  { intros ch1 ch2 attrs1 attrs2 c1 c2. rewrite !run_body_of.
    unfold responses. cbn [trace outcome fmap list_fmap snd].
    intros H. injection H as ->. reflexivity. }
  split; [exact Hdet | split].
  - intros ch before attrs c s. unfold s. by rewrite run_all_attrs.
  - intros ch before1 before2 attrs c s1 s2. apply Hdet.
Qed.

(** C2, as amended.  A public member of [BPool] raises nothing of its
    own: every failure of a call is the error with which the channel
    answered its request, handed on unchanged.
    [get_web3_connection_provider] does raise an error of its own, an
    [AssertionError], exactly on the inputs that are not 'ganache', start
    with neither 'http' nor 'ws' and are not a supported network name. *)
Theorem errors_of_operations :
  (forall i, only_remote_errors (body_of i))
  /\ (forall i (ch : channel) attrs c f,
        outcome (run ch (body_of i) attrs c) = inl f <->
        exists err, (ch (request_of i) c).1 = inl err /\ f = RemoteFailure err)
  /\ (forall network_url,
        Util.get_web3_connection_provider network_url = Raised AssertionError <->
        network_url <> "ganache"
        /\ Util.startswith network_url "http" = false
        /\ Util.startswith network_url "ws" = false
        /\ network_url ∉ Util.SUPPORTED_NETWORK_NAMES).
Proof.
  assert (Hiff : forall i (ch : channel) attrs c f,
        outcome (run ch (body_of i) attrs c) = inl f <->
        exists err, (ch (request_of i) c).1 = inl err /\ f = RemoteFailure err).
  { intros i ch attrs c f. rewrite run_body_of. cbn [outcome].
    destruct (ch (request_of i) c).1 as [err | v]; cbn [answer_outcome]; split.
    - intros [= <-]. eauto.
    - intros (err' & [= <-] & ->). reflexivity.
    - discriminate.
    - intros (err' & [=] & _). }
  split; [| split; [exact Hiff |]].
  - intros i ch attrs c f Hf. apply Hiff in Hf as (err & _ & ->). eauto.
  - apply UtilFacts.assertion_iff.
Qed.

(** C3, as amended.  Every public member of [BPool] needs the external
    system: its outcome is whatever the channel answers (any answer can
    be its outcome), so no outcome computed from the arguments alone is
    its outcome against every channel.  The helpers [to_base],
    [from_base], [get_infura_url] and [get_web3_connection_provider] are
    self-contained: their result is computed from their arguments and no
    request is sent. *)
Theorem results_of_operations (c0 : chain) :
  (forall i, needs_remote (body_of i))
  /\ (forall i attrs (a : remote_error + value),
        exists ch : channel,
          outcome (run ch (body_of i) attrs c0) = answer_outcome a)
  /\ (forall amt dec, self_contained (lift (Util.to_base amt dec)))
  /\ (forall num_base dec, self_contained (lift (Util.from_base num_base dec)))
  /\ (forall infura_id network,
        self_contained (lift (Ok (Util.get_infura_url infura_id network))))
  /\ (forall network_url,
        self_contained (lift (Util.get_web3_connection_provider network_url))).
Proof.
  assert (Hany : forall i attrs (a : remote_error + value),
        exists ch : channel,
          outcome (run ch (body_of i) attrs c0) = answer_outcome a).
  { intros i attrs a. exists (fun _ c => (a, c)). by rewrite run_body_of. }
  assert (Hlift : forall (A : Type) (r : result A), self_contained (lift r)).
  { intros A r.
    exists (match r with Ok a => inr a | Raised e => inl (LocalFailure e) end).
    intros ch attrs c. rewrite lift_run. split; reflexivity. }
  split; [| split; [exact Hany | repeat split; intros; apply Hlift]].
  intros i [o Ho].
  destruct (Hany i ∅ (inr VNone)) as [ch1 H1].
  destruct (Hany i ∅ (inr (VBool true))) as [ch2 H2].
  rewrite Ho in H1, H2. rewrite H1 in H2. discriminate H2.
Qed.

(** *** Further properties of the wrapper *)

Abbreviation run_each := (BPool.run_each Wallet GASLIMIT_BFACTORY_NEWBPOOL).

Lemma ints_inj (l l' : list Z) : VInt <$> l = VInt <$> l' -> l = l'.
Proof.
  revert l'.
  induction l as [| x l IH]; intros [| x' l'] H; cbn in H; try done.
  injection H as -> H. f_equal. auto.
Qed.

Lemma request_of_inj (i j : invocation) : request_of i = request_of j -> i = j.
Proof.
  destruct i, j; intros H; try discriminate H; try reflexivity;
    try (injection H; intros; subst; reflexivity).
  - injection H. intros.
    destruct bpool_initialized, bpool_initialized0. cbn in *. by subst.
  - injection H. intros -> ->%ints_inj ->. reflexivity.
  - injection H. intros -> ->%ints_inj ->. reflexivity.
Qed.

(** X11.  The request a call sends determines the call: two calls of
    public members of [BPool] that send the same request are the same
    member called with the same arguments (and the same wallet).  No two
    members share a contract function and no argument is dropped or
    merged on the way. *)
Theorem bpool_request_determines_call (i j : invocation)
    (ch ch' : channel) attrs attrs' c c' :
  (trace (run ch (body_of i) attrs c)).*1
  = (trace (run ch' (body_of j) attrs' c')).*1 ->
  i = j.
Proof.
  rewrite !run_body_of. cbn [trace fmap list_fmap fst]. intros [= H].
  by apply request_of_inj.
Qed.

(** X12.  In a sequence of calls every call sends exactly one request,
    its own, in the order of the calls, also after a call that failed and
    for a call that is repeated: nothing is batched, cached, retried or
    skipped.  Each call's outcome is the answer it received, and the
    attributes are those the sequence started with. *)
Theorem bpool_sequence_requests (ch : channel) (calls : list invocation) attrs c :
  Forall2
    (fun i ex =>
       exists answer,
         trace ex = [(request_of i, answer)]
         /\ outcome ex = answer_outcome answer
         /\ attrs_after ex = attrs)
    calls (run_each ch calls attrs c).
Proof.
  revert c. induction calls as [| i rest IH]; intros c; [constructor |].
  cbn [BPool.run_each]. rewrite run_body_of. cbn [attrs_after chain_after].
  constructor; [| apply IH].
  by exists (ch (request_of i) c).1.
Qed.

End Runs.

(** *** Concrete runs *)

(** C1 fails on [setup]: the request it sends carries the option ["gas"],
    which the caller did not supply, so the call is not a plain
    pass-through. *)
Lemma setup_is_not_plain_pass_through :
  trace (run (always (inr (VStr "0xtx"))) (body_of string 5000000 setup_example) ∅ 0%nat)
  = [ (send_transaction "setup"
         [ VStr "0xDT"; VInt 1000; VInt 9; VStr "0xOCEAN"; VInt 100; VInt 1; VInt 3 ]
         "alice" (Some {[ "gas" := VInt 5000000 ]}),
       inr (VStr "0xtx")) ]
  /\ ~ plain_pass_through string 5000000 (remote_error := string) (chain := nat)
         setup_example.
Proof.
  split; [reflexivity |].
  intros H.
  destruct (H (always (inr (VStr "0xtx"))) ∅ 0%nat) as [Ht _].
  rewrite run_body_of in Ht. cbn [trace] in Ht.
  injection Ht as Hreq. discriminate Hreq.
Qed.

Lemma bpool_pass_through_witness :
  is_setup string (Bind string "0xDT" 10 5 "alice") = false
  /\ plain_pass_through string 5000000 (remote_error := string) (chain := nat)
       (Bind string "0xDT" 10 5 "alice").
Proof.
  split; [reflexivity |].
  apply (bpool_pass_through string 5000000 (Bind string "0xDT" 10 5 "alice")).
  reflexivity.
Defined.

(** C2 fails on [get_web3_connection_provider]: on an unsupported name it
    raises an assertion error of its own, with no request sent. *)
Lemma assertion_is_a_local_error :
  Util.get_web3_connection_provider "testnet" = Raised AssertionError
  /\ ~ only_remote_errors string (remote_error := string) (chain := nat)
         (lift (Util.get_web3_connection_provider "testnet")).
Proof.
  split; [reflexivity |].
  intros H.
  destruct (H (always (inr VNone)) ∅ 0%nat (LocalFailure AssertionError) eq_refl)
    as [err Herr].
  discriminate Herr.
Qed.

Lemma errors_of_operations_witness :
  (outcome (run (always (inl "ERR_NOT_CONTROLLER"))
              (body_of string 5000000 (Finalize string "alice")) ∅ 0%nat)
   = inl (RemoteFailure "ERR_NOT_CONTROLLER")
   /\ exists err : string, RemoteFailure "ERR_NOT_CONTROLLER" = RemoteFailure err)
  /\ (("testnet" <> "ganache"
       /\ Util.startswith "testnet" "http" = false
       /\ Util.startswith "testnet" "ws" = false
       /\ "testnet" ∉ Util.SUPPORTED_NETWORK_NAMES)
      /\ Util.get_web3_connection_provider "testnet" = Raised AssertionError).
Proof.
  pose proof (errors_of_operations string 5000000 (remote_error := string)
                (chain := nat)) as (Honly & _ & Hassert).
  split.
  - split; [reflexivity |].
    exact (Honly (Finalize string "alice") (always (inl "ERR_NOT_CONTROLLER"))
                 ∅ 0%nat _ eq_refl).
  - assert (Hhyp : "testnet" <> "ganache"
                   /\ Util.startswith "testnet" "http" = false
                   /\ Util.startswith "testnet" "ws" = false
                   /\ "testnet" ∉ Util.SUPPORTED_NETWORK_NAMES).
    { split; [discriminate |]. split; [reflexivity |]. split; [reflexivity |].
      apply (proj1 (bool_decide_eq_false _)). reflexivity. }
    split; [exact Hhyp |].
    exact (proj2 (Hassert "testnet") Hhyp).
Defined.

(** C3 fails on [to_base] (and on [get_infura_url]): the result is
    computed from the arguments, whatever the channel. *)
Lemma to_base_needs_no_remote :
  (Util.to_base (PyNum.PyInt 1) 18 = Ok 1000000000000000000
   /\ ~ needs_remote string (remote_error := string) (chain := nat)
          (lift (Util.to_base (PyNum.PyInt 1) 18)))
  /\ (Util.get_infura_url Util.WEB3_INFURA_PROJECT_ID "kovan"
      = "wss://kovan.infura.io/ws/v3/357f2fe737db4304bd2f7285c5602d0d"
      /\ ~ needs_remote string (remote_error := string) (chain := nat)
             (lift (Ok (Util.get_infura_url Util.WEB3_INFURA_PROJECT_ID "kovan")))).
Proof.
  split; (split; [reflexivity |]); intros H; apply H.
  - exists (inr 1000000000000000000). reflexivity.
  - exists (inr "wss://kovan.infura.io/ws/v3/357f2fe737db4304bd2f7285c5602d0d").
    reflexivity.
Qed.

Lemma results_of_operations_witness :
  exists ch : Remote.channel string string nat,
    outcome (run ch (body_of string 5000000 (Get_swap_fee string)) ∅ 0%nat)
    = inr (VInt 1000000000000000).
Proof.
  exact (proj1 (proj2 (results_of_operations string 5000000
                         (remote_error := string) 0%nat))
               (Get_swap_fee string) ∅ (inr (VInt 1000000000000000))).
Defined.

Lemma bpool_deterministic_independent_witness :
  responses (run (always (inr (VInt 7)))
               (body_of string 5000000 (Get_balance string "0xDT")) ∅ 0%nat)
  = responses (run (fun _ h => (inr (VInt 7), h))
                 (body_of string 5000000 (Get_balance string "0xDT"))
                 {[ "address" := VStr "0xPOOL" ]} 12%nat)
  /\ outcome (run (always (inr (VInt 7)))
                (body_of string 5000000 (Get_balance string "0xDT")) ∅ 0%nat)
     = outcome (run (fun _ h => (inr (VInt 7), h))
                  (body_of string 5000000 (Get_balance string "0xDT"))
                  {[ "address" := VStr "0xPOOL" ]} 12%nat).
Proof.
  split; [reflexivity |].
  apply (bpool_deterministic_independent string 5000000
           (Get_balance string "0xDT")).
  reflexivity.
Defined.

Lemma bpool_request_determines_call_witness :
  (trace (run (always (inr (VInt 7)))
            (body_of string 5000000 (Get_balance string "0xDT")) ∅ 0%nat)).*1
  = (trace (run (always (inl "revert"))
              (body_of string 5000000 (Get_balance string "0xDT")) ∅ 3%nat)).*1
  /\ Get_balance string "0xDT" = Get_balance string "0xDT".
Proof.
  assert (H : (trace (run (always (inr (VInt 7)))
                        (body_of string 5000000 (Get_balance string "0xDT"))
                        ∅ 0%nat)).*1
              = (trace (run (always (inl "revert"))
                          (body_of string 5000000 (Get_balance string "0xDT"))
                          ∅ 3%nat)).*1) by reflexivity.
  split; [exact H |].
  exact (bpool_request_determines_call string 5000000 _ _ _ _ _ _ _ _ H).
Defined.

End BPoolFacts.
